(** * MySynthesiaCanvas: the slash-command chatbot and the tool-calling chatbot

    A shallow embedding of
      - src/streamlit_mcp_chatbot.py  (module [CommandChat]): the command
        dispatch and the service adapters behind it;
      - src/mcp_chatbot.py            (module [ToolChat]): the two-request
        tool-calling turn against the inference server.

    Python text is modelled as [string], a character standing for one code
    point below 256: on these [isspace], [lower] and [strip] below are
    [str.isspace], [str.lower] and [str.strip] (white space is 9-13, 28-32,
    133 and 160; the upper-case letters are A-Z and the Latin-1 capitals
    192-214 and 216-222, each 32 below its lower-case letter).  A code point
    from 256 on has no character in the model; the few fixed texts of the
    source that hold one are written as their UTF-8 bytes and are never
    stripped, lower-cased or split.  External services (the vault HTTP
    API, the container runtime, the inference server) are oracles of an
    environment record: a turn asks the environment for the outcome of
    each call it makes.
    Exceptions are values of [exn]; a computation that can raise returns a
    [result]. *)

From Stdlib Require Import String Ascii List Bool Arith ZArith Lia.
From Stdlib Require Import DecimalString.
Import ListNotations.
Set Warnings "-register-all".
Open Scope string_scope.

(** ** Python preliminaries: exceptions and results *)

Module Py.

Inductive exn : Type :=
| IndexError
| KeyError (key : string)
| TypeError (msg : string)
| AttributeError (msg : string)
| JSONDecodeError (msg : string)
| RequestException (msg : string)
| ImageNotFound (msg : string)
| OtherException (msg : string).

(** [str(e)], as interpolated by the f-strings of the source. *)
Definition str_exn (e : exn) : string :=
  match e with
  | IndexError => "list index out of range"
  | KeyError k => "'" ++ k ++ "'"
  | TypeError m => m
  | AttributeError m => m
  | JSONDecodeError m => m
  | RequestException m => m
  | ImageNotFound m => m
  | OtherException m => m
  end.

Inductive result (A : Type) : Type :=
| Ok (a : A)
| Raise (e : exn).
Arguments Ok {A} a.
Arguments Raise {A} e.

Definition bind {A B} (r : result A) (k : A -> result B) : result B :=
  match r with
  | Ok a => k a
  | Raise e => Raise e
  end.

(** [l[i]] on a list. *)
Definition getitem {A} (l : list A) (i : nat) : result A :=
  match nth_error l i with
  | Some x => Ok x
  | None => Raise IndexError
  end.

(** [try: body   except IndexError: handler] *)
Definition except_IndexError {A} (body : result A) (handler : result A)
  : result A :=
  match body with
  | Raise IndexError => handler
  | r => r
  end.

(** Code that also reads and writes a state [S] (the Streamlit session, the
    screen, the trace of outbound calls): a state and exception monad.  The
    state survives a raised exception, as the session does. *)
Definition M (S A : Type) : Type := S -> result A * S.

Definition ret {S A} (a : A) : M S A := fun s => (Ok a, s).

Definition raise {S A} (e : exn) : M S A := fun s => (Raise e, s).

Definition mbind {S A B} (m : M S A) (k : A -> M S B) : M S B :=
  fun s =>
    match m s with
    | (Ok a, s') => k a s'
    | (Raise e, s') => (Raise e, s')
    end.

Definition modify {S} (f : S -> S) : M S unit := fun s => (Ok tt, f s).

Definition lift {S A} (r : result A) : M S A := fun s => (r, s).

(** [try: body   except ...: handler e]; [handler] returns [None] for an
    exception its clauses do not match, which is then raised again. *)
Definition try_except {S A} (body : M S A) (handler : exn -> option (M S A))
  : M S A :=
  fun s =>
    match body s with
    | (Ok a, s') => (Ok a, s')
    | (Raise e, s') =>
        match handler e with
        | Some h => h s'
        | None => (Raise e, s')
        end
    end.

End Py.

Notation "x <- c1 ;; c2" := (Py.bind c1 (fun x => c2))
  (at level 61, c1 at next level, right associativity).
Notation "x <~ c1 ;; c2" := (Py.mbind c1 (fun x => c2))
  (at level 61, c1 at next level, right associativity).
Notation "c1 ;;; c2" := (Py.mbind c1 (fun _ => c2))
  (at level 61, right associativity).

(** ** The conversation store both programs keep in [st.session_state] *)

Module Conversation.

Inductive role : Type := System | User | Assistant | Tool.

Definition role_eqb (a b : role) : bool :=
  match a, b with
  | System, System | User, User | Assistant, Assistant | Tool, Tool => true
  | _, _ => false
  end.

(** A message dictionary: ["role"], ["content"] and, on tool results,
    ["name"]. *)
Record message : Type := Message {
  role_of : role;
  content : string;
  name : option string
}.

Definition msg (r : role) (c : string) : message := Message r c None.

(** What the script puts on the screen. *)
Inductive ui_event : Type :=
| UiMarkdown (r : role) (text : string)
| UiError (text : string).

End Conversation.

(** ** Python string methods used by the command parser *)

Module PyStr.

Definition nl : string := String (ascii_of_nat 10) "".

(** [c.isspace()] for a code point below 256: the ASCII white space
    (tab to carriage return, the four separators 28-31, the space), the
    next-line control 133 and the no-break space 160. *)
Definition isspace (c : ascii) : bool :=
  let n := nat_of_ascii c in
  ((9 <=? n)%nat && (n <=? 13)%nat) || ((28 <=? n)%nat && (n <=? 32)%nat)
  || (n =? 133)%nat || (n =? 160)%nat.

(** The code points below 256 that [str.lower] changes: A-Z, and the
    Latin-1 capitals from 192 to 222 without the multiplication sign
    215. *)
Definition isupper (c : ascii) : bool :=
  let n := nat_of_ascii c in
  ((65 <=? n)%nat && (n <=? 90)%nat)
  || ((192 <=? n)%nat && (n <=? 214)%nat)
  || ((216 <=? n)%nat && (n <=? 222)%nat).

(** [c.lower()] for a code point below 256: each of those capitals has
    its lower-case letter 32 above it. *)
Definition lower_char (c : ascii) : ascii :=
  if isupper c then ascii_of_nat (nat_of_ascii c + 32) else c.

(** [s.lower()] *)
Fixpoint lower (s : string) : string :=
  match s with
  | EmptyString => EmptyString
  | String c s' => String (lower_char c) (lower s')
  end.

(** [s.lstrip()] *)
Fixpoint lstrip (s : string) : string :=
  match s with
  | EmptyString => EmptyString
  | String c s' => if isspace c then lstrip s' else s
  end.

(** [s.rstrip()] *)
Fixpoint rstrip (s : string) : string :=
  match s with
  | EmptyString => EmptyString
  | String c s' =>
      match rstrip s' with
      | EmptyString => if isspace c then EmptyString else String c EmptyString
      | r => String c r
      end
  end.

(** [s.strip()] *)
Definition strip (s : string) : string := rstrip (lstrip s).

(** [s.startswith(p)] *)
Fixpoint startswith (p s : string) : bool :=
  match p, s with
  | EmptyString, _ => true
  | String a p', String b s' => if Ascii.eqb a b then startswith p' s' else false
  | String _ _, EmptyString => false
  end.

(** [s[n:]] *)
Fixpoint drop (n : nat) (s : string) : string :=
  match n, s with
  | O, _ => s
  | S n', String _ s' => drop n' s'
  | S _, EmptyString => EmptyString
  end.

(** [s.partition(sep)] when [sep] occurs in [s]: the text before the first
    occurrence and the text after it. *)
Fixpoint find_sep (sep s : string) : option (string * string) :=
  if startswith sep s then Some (EmptyString, drop (String.length sep) s)
  else
    match s with
    | EmptyString => None
    | String c s' =>
        match find_sep sep s' with
        | Some (a, b) => Some (String c a, b)
        | None => None
        end
    end.

(** [s.split(sep, maxsplit)] for a non-empty [sep]. *)
Fixpoint split (sep : string) (maxsplit : nat) (s : string) : list string :=
  match maxsplit with
  | O => [s]
  | S n =>
      match find_sep sep s with
      | None => [s]
      | Some (a, b) => a :: split sep n b
      end
  end.

(** [sep.join(l)] *)
Definition join (sep : string) (l : list string) : string :=
  String.concat sep l.

(** No character of [s] is an upper-case letter: [s] is text that
    [str.lower] leaves as it is. *)
Fixpoint no_upper (s : string) : bool :=
  match s with
  | EmptyString => true
  | String c s' => negb (isupper c) && no_upper s'
  end.

(** A word: non-empty text without white space. *)
Fixpoint no_space (s : string) : bool :=
  match s with
  | EmptyString => true
  | String c s' => negb (isspace c) && no_space s'
  end.

Definition is_word (s : string) : bool :=
  match s with
  | EmptyString => false
  | _ => no_space s
  end.


End PyStr.

(** ** JSON values, as [response.json()] and [json.loads] give them *)

Module Json.
Import Py.

(** A JSON value; a dictionary is an association list with distinct keys.
    A number is an integer: a fractional number is truthy and has neither
    [get] nor items, like an integer other than 0. *)
Inductive json : Type :=
| JNull
| JBool (b : bool)
| JNum (n : Z)
| JStr (s : string)
| JList (l : list json)
| JDict (d : list (string * json)).

(** [d[k]] when [k in d] *)
Fixpoint lookup {A} (k : string) (d : list (string * A)) : option A :=
  match d with
  | [] => None
  | (k', v) :: d' => if String.eqb k k' then Some v else lookup k d'
  end.

(** [type(v).__name__] *)
Definition type_name (v : json) : string :=
  match v with
  | JNull => "NoneType"
  | JBool _ => "bool"
  | JNum _ => "int"
  | JStr _ => "str"
  | JList _ => "list"
  | JDict _ => "dict"
  end.

(** [bool(v)] *)
Definition truthy (v : json) : bool :=
  match v with
  | JNull => false
  | JBool b => b
  | JNum n => negb (Z.eqb n 0)
  | JStr s => negb (String.eqb s "")
  | JList l => match l with [] => false | _ => true end
  | JDict d => match d with [] => false | _ => true end
  end.

(** [v.get(key, default)]: only a dictionary has the method. *)
Definition dict_get (v : json) (key : string) (default : json) : result json :=
  match v with
  | JDict d =>
      Ok (match lookup key d with
          | Some x => x
          | None => default
          end)
  | _ =>
      Raise (AttributeError ("'" ++ type_name v ++ "' object has no attribute 'get'"))
  end.

(** The items a [for] loop over [v] visits: the elements of a list, the
    characters of a string, the keys of a dictionary; the other values are
    not iterable. *)
Definition iterate (v : json) : result (list json) :=
  match v with
  | JList l => Ok l
  | JStr s => Ok (map (fun c => JStr (String c "")) (list_ascii_of_string s))
  | JDict d => Ok (map (fun kv => JStr (fst kv)) d)
  | _ => Raise (TypeError ("'" ++ type_name v ++ "' object is not iterable"))
  end.

End Json.

(** ** src/streamlit_mcp_chatbot.py *)

Module CommandChat.
Import Py PyStr Conversation.

(** *** Command dispatch (lines 336-393): which adapter, with which
    arguments *)

Inductive action : Type :=
| Help
| ListFilesInVault
| ListFilesInDir (directory : string)
| GetFileContents (filepath : string)
| AppendContent (filepath content : string)
| PatchContent (filepath patch_type patch_target new_content : string)
| SearchObsidianVault (query : string)
| DeleteObsidianFile (filepath : string)
| ListDockerImages
| ListDockerContainers
| CreateDockerContainer (image_name : string)
| Usage (text : string)
| Unrecognized.

Definition usage_append : string :=
  "Invalid command format. Usage: `/obsidian_append [filepath] [content]`".

Definition usage_patch : string :=
  "Invalid command format. Usage: `/obsidian_patch [filepath] [patch_type] [patch_target] [new_content]`".

Definition unrecognized_text : string :=
  "I don't understand that command. Please type `/help` for a list of commands.".

Definition help_text : string :=
  "### Available Commands:" ++ nl ++
  "- `/help`: Show this help message." ++ nl ++
  "- `/obsidian_list_all`: List all files and directories in the root of the Obsidian vault." ++ nl ++
  "- `/obsidian_list_dir [directory]`: List files and directories in a specific Obsidian directory." ++ nl ++
  "- `/obsidian_get_content [filepath]`: Read a file from the Obsidian vault." ++ nl ++
  "- `/obsidian_append [filepath] [content]`: Append content to an Obsidian file." ++ nl ++
  "- `/obsidian_patch [filepath] [patch_type] [patch_target] [new_content]`: Patch content to an Obsidian file." ++ nl ++
  "- `/obsidian_search [query]`: Search for text in the Obsidian vault." ++ nl ++
  "- `/obsidian_delete [filepath]`: Delete a file or directory from the Obsidian vault." ++ nl ++
  "- `/docker_list_images`: List all Docker images." ++ nl ++
  "- `/docker_list_containers`: List all running Docker containers." ++ nl ++
  "- `/docker_create [image_name]`: Create and run a container from an image.".

(** [command.split(prefix, 1)[1].strip()] *)
Definition remainder (prefix command : string) : result string :=
  r <- getitem (split prefix 1 command) 1 ;; Ok (strip r).

(** Lines 362-368: the body of the [/obsidian_append] branch. *)
Definition append_arguments (command : string) : result action :=
  except_IndexError
    (r <- remainder "/obsidian_append " command ;;
     let parts := split " " 1 r in
     filepath <- getitem parts 0 ;;
     content <- getitem parts 1 ;;
     Ok (AppendContent filepath content))
    (Ok (Usage usage_append)).

(** Lines 370-378: the body of the [/obsidian_patch] branch. *)
Definition patch_arguments (command : string) : result action :=
  except_IndexError
    (r <- remainder "/obsidian_patch " command ;;
     let parts := split " " 3 r in
     filepath <- getitem parts 0 ;;
     patch_type <- getitem parts 1 ;;
     patch_target <- getitem parts 2 ;;
     new_content <- getitem parts 3 ;;
     Ok (PatchContent filepath patch_type patch_target new_content))
    (Ok (Usage usage_patch)).

(** [prompt.strip().lower()] *)
Definition normalize (prompt : string) : string := lower (strip prompt).

(** The [if]/[elif] chain on [command = prompt.strip().lower()].  An
    [IndexError] is caught only in the two branches that have a handler. *)
Definition dispatch (prompt : string) : result action :=
  let command := normalize prompt in
  if startswith "/help" command then Ok Help
  else if startswith "/obsidian_list_all" command then Ok ListFilesInVault
  else if startswith "/obsidian_list_dir " command then
    directory <- remainder "/obsidian_list_dir " command ;;
    Ok (ListFilesInDir directory)
  else if startswith "/obsidian_get_content " command then
    filepath <- remainder "/obsidian_get_content " command ;;
    Ok (GetFileContents filepath)
  else if startswith "/obsidian_append " command then append_arguments command
  else if startswith "/obsidian_patch " command then patch_arguments command
  else if startswith "/obsidian_search " command then
    query <- remainder "/obsidian_search " command ;;
    Ok (SearchObsidianVault query)
  else if startswith "/obsidian_delete " command then
    filepath <- remainder "/obsidian_delete " command ;;
    Ok (DeleteObsidianFile filepath)
  else if startswith "/docker_list_images" command then Ok ListDockerImages
  else if startswith "/docker_list_containers" command then
    Ok ListDockerContainers
  else if startswith "/docker_create " command then
    image_name <- remainder "/docker_create " command ;;
    Ok (CreateDockerContainer image_name)
  else Ok Unrecognized.

(** The positional arguments an action hands to its adapter. *)
Definition action_args (a : action) : list string :=
  match a with
  | ListFilesInDir d => [d]
  | GetFileContents f => [f]
  | AppendContent f c => [f; c]
  | PatchContent f t g c => [f; t; g; c]
  | SearchObsidianVault q => [q]
  | DeleteObsidianFile f => [f]
  | CreateDockerContainer i => [i]
  | Help | ListFilesInVault | ListDockerImages | ListDockerContainers
  | Usage _ | Unrecognized => []
  end.


(** The commands of the help text, with the number of arguments it
    documents for each. *)
Inductive command_name : Type :=
| CHelp | CObsidianListAll | CObsidianListDir | CObsidianGetContent
| CObsidianAppend | CObsidianPatch | CObsidianSearch | CObsidianDelete
| CDockerListImages | CDockerListContainers | CDockerCreate.

Definition keyword (c : command_name) : string :=
  match c with
  | CHelp => "/help"
  | CObsidianListAll => "/obsidian_list_all"
  | CObsidianListDir => "/obsidian_list_dir"
  | CObsidianGetContent => "/obsidian_get_content"
  | CObsidianAppend => "/obsidian_append"
  | CObsidianPatch => "/obsidian_patch"
  | CObsidianSearch => "/obsidian_search"
  | CObsidianDelete => "/obsidian_delete"
  | CDockerListImages => "/docker_list_images"
  | CDockerListContainers => "/docker_list_containers"
  | CDockerCreate => "/docker_create"
  end.

Definition documented_args (c : command_name) : nat :=
  match c with
  | CHelp | CObsidianListAll | CDockerListImages | CDockerListContainers => 0
  | CObsidianListDir | CObsidianGetContent | CObsidianSearch
  | CObsidianDelete | CDockerCreate => 1
  | CObsidianAppend => 2
  | CObsidianPatch => 4
  end.

(** The adapter call of a command on its arguments, when there are exactly
    as many as documented. *)
Definition call_of (c : command_name) (args : list string) : option action :=
  match c, args with
  | CHelp, [] => Some Help
  | CObsidianListAll, [] => Some ListFilesInVault
  | CObsidianListDir, [d] => Some (ListFilesInDir d)
  | CObsidianGetContent, [f] => Some (GetFileContents f)
  | CObsidianAppend, [f; x] => Some (AppendContent f x)
  | CObsidianPatch, [f; t; g; x] => Some (PatchContent f t g x)
  | CObsidianSearch, [q] => Some (SearchObsidianVault q)
  | CObsidianDelete, [f] => Some (DeleteObsidianFile f)
  | CDockerListImages, [] => Some ListDockerImages
  | CDockerListContainers, [] => Some ListDockerContainers
  | CDockerCreate, [i] => Some (CreateDockerContainer i)
  | _, _ => None
  end.

(** The usage text of a command that has one. *)
Definition usage_of (c : command_name) : option string :=
  match c with
  | CObsidianAppend => Some usage_append
  | CObsidianPatch => Some usage_patch
  | _ => None
  end.

(** The line a user types: the keyword, then the arguments, separated by
    single spaces. *)
Definition command_line (c : command_name) (args : list string) : string :=
  join " " (keyword c :: args).

(** The [n] positional arguments read from a line of words: the first
    [n - 1] words, then the rest of the line as the last argument. *)
Definition positional (n : nat) (words : list string) : list string :=
  match n with
  | O => []
  | S k => firstn k words ++ [join " " (skipn k words)]
  end.

(** *** The session, the environment and the service adapters
    (lines 27-314) *)

(** JSON bodies the adapters post. *)
Inductive body : Type :=
| BStr (s : string)
| BObj (fields : list (string * body)).

Inductive vault_request : Type :=
| Get (url authorization : string)
| Post (url authorization : string) (json : body).

(** A well-formed answer of the vault: the fields the adapters read from
    [response.json()], each missing or of the type its adapter expects. *)
Record vault_response : Type := VaultResponse {
  files : option (list string);
  file_content : option string;
  results : option (list string)
}.

(** The JSON object of a well-formed answer. *)
Definition body_of (r : vault_response) : Json.json :=
  Json.JDict
    (match files r with
     | Some fs => [("files", Json.JList (map Json.JStr fs))]
     | None => []
     end
     ++ match file_content r with
        | Some c => [("content", Json.JStr c)]
        | None => []
        end
     ++ match results r with
        | Some rs => [("results", Json.JList (map Json.JStr rs))]
        | None => []
        end)%list.

(** A value the listing loop can go through: one that is falsy, so that
    the loop is not reached, or a list, a string or a dictionary. *)
Definition listable (v : Json.json) : bool :=
  match v with
  | Json.JNull | Json.JList _ | Json.JStr _ | Json.JDict _ => true
  | Json.JBool b => negb b
  | Json.JNum n => Z.eqb n 0
  end.

(** A body every adapter can read: an object whose [files] and [results],
    when present, are listable and whose [content], when present, is a
    string. *)
Definition readable (body : Json.json) : bool :=
  match body with
  | Json.JDict d =>
      match Json.lookup "files" d with
      | Some v => listable v
      | None => true
      end
      && match Json.lookup "results" d with
         | Some v => listable v
         | None => true
         end
      && match Json.lookup "content" d with
         | Some (Json.JStr _) | None => true
         | Some _ => false
         end
  | _ => false
  end.

Record image : Type := Image {
  image_short_id : string;
  image_tags : list string
}.

Record container : Type := Container {
  container_name : string;
  container_short_id : string;
  container_image : image;
  container_status : string
}.

(** An outbound call, as recorded in the trace of the session. *)
Inductive call : Type :=
| VaultCall (r : vault_request)
| DockerFromEnv
| ImagesList
| ContainersList
| ImagesGet (image_name : string)
| ImagesPull (image_name : string)
| ContainersRun (image_name : string).

(** The static configuration and what the external services answer.
    A vault answer [Ok body] is a response with a success status, [body]
    being what [response.json()] gives where the adapter calls it: any
    JSON value, of the expected shape or not.  A vault answer
    [Raise (RequestException _)] stands for a failure of the request, of
    [raise_for_status] or of the decoding of the body.  [str_value] is
    [str] on the values that are no strings. *)
Record env : Type := Env {
  obsidian_api_url : string;
  obsidian_api_key : string;
  vault : vault_request -> result Json.json;
  docker_from_env : result unit;
  images_list : result (list image);
  containers_list : result (list container);
  images_get : string -> result unit;
  images_pull : string -> result unit;
  containers_run : string -> result container;
  str_value : Json.json -> string
}.

(** [st.session_state.messages], [st.session_state.rerun], the screen and
    the trace of outbound calls. *)
Record state : Type := State {
  messages : list message;
  rerun : bool;
  ui : list ui_event;
  calls : list call
}.

Definition append_message (m : message) : M state unit :=
  modify (fun s => State (messages s ++ [m]) (rerun s) (ui s) (calls s)).

Definition set_rerun : M state unit :=
  modify (fun s => State (messages s) true (ui s) (calls s)).

Definition show (ev : ui_event) : M state unit :=
  modify (fun s => State (messages s) (rerun s) (ui s ++ [ev]) (calls s)).

(** One outbound call: it is recorded, and the environment answers. *)
Definition perform {A} (c : call) (answer : result A) : M state A :=
  fun s => (answer, State (messages s) (rerun s) (ui s) (calls s ++ [c])).

Definition bullet (x : string) : string := "- `" ++ x ++ "`" ++ nl.

(** [for x in xs: acc += f"- `{x}`\n"] *)
Definition bullets (acc : string) (xs : list string) : string :=
  fold_left (fun a x => a ++ bullet x) xs acc.

(** The list under a key of a well-formed answer: [d.get(key, [])]. *)
Definition get_list (o : option (list string)) : list string :=
  match o with Some l => l | None => [] end.

(** [except requests.exceptions.RequestException as e: return f"{prefix}{e}"] *)
Definition except_RequestException (prefix : string) (e : exn)
  : option (M state string) :=
  match e with
  | RequestException _ => Some (ret (prefix ++ str_exn e))
  | _ => None
  end.

(** [except Exception as e: return f"{prefix}{e}"] *)
Definition except_Exception (prefix : string) (e : exn)
  : option (M state string) :=
  Some (ret (prefix ++ str_exn e)).

Section Adapters.
Variable e : env.

Definition authorization : string := "Bearer " ++ obsidian_api_key e.

(** [f"{v}"]: a string as it is, any other value through [str]. *)
Definition format (v : Json.json) : string :=
  match v with
  | Json.JStr text => text
  | _ => str_value e v
  end.

Definition get_docker_client : M state (option unit) :=
  try_except
    (client <~ perform DockerFromEnv (docker_from_env e) ;;
     ret (Some client))
    (fun x => Some (show (UiError ("Error connecting to Docker: " ++ str_exn x)) ;;;
                    ret None)).

Definition list_files_in_vault : M state string :=
  let OBSIDIAN_API_URL := obsidian_api_url e ++ "/vault/" in
  try_except
    (response <~ perform (VaultCall (Get OBSIDIAN_API_URL authorization))
                         (vault e (Get OBSIDIAN_API_URL authorization)) ;;
     files <~ lift (Json.dict_get response "files" (Json.JList [])) ;;
     if Json.truthy files then
       items <~ lift (Json.iterate files) ;;
       ret (bullets ("### Obsidian Files" ++ nl) (map format items))
     else ret "No files found in the Obsidian vault.")
    (except_RequestException "Error listing files from Obsidian: ").

Definition list_files_in_dir (directory : string) : M state string :=
  let rq := Post (obsidian_api_url e ++ "/list_files_in_dir") authorization
                 (BObj [("directory", BStr directory)]) in
  try_except
    (response <~ perform (VaultCall rq) (vault e rq) ;;
     files <~ lift (Json.dict_get response "files" (Json.JList [])) ;;
     if Json.truthy files then
       items <~ lift (Json.iterate files) ;;
       ret (bullets ("### Files in `" ++ directory ++ "`" ++ nl)
                    (map format items))
     else ret ("No files found in directory `" ++ directory ++ "`."))
    (except_RequestException "Error listing files in directory from Obsidian: ").

(** The adapter returns the value under [content] as it is; the model
    keeps the text [st.markdown] shows for it, which for a string is the
    string itself. *)
Definition get_file_contents (filepath : string) : M state string :=
  let rq := Post (obsidian_api_url e ++ "/get_file_contents") authorization
                 (BObj [("filepath", BStr filepath)]) in
  try_except
    (response <~ perform (VaultCall rq) (vault e rq) ;;
     content <~ lift (Json.dict_get response "content"
                        (Json.JStr "File content not found.")) ;;
     ret (format content))
    (except_RequestException "Error reading file from Obsidian: ").

Definition append_content (filepath content : string) : M state string :=
  let rq := Post (obsidian_api_url e ++ "/append_content") authorization
                 (BObj [("filepath", BStr filepath); ("content", BStr content)]) in
  try_except
    (perform (VaultCall rq) (vault e rq) ;;;
     ret "Content successfully appended.")
    (except_RequestException "Error appending content to Obsidian: ").

Definition patch_content (filepath patch_type patch_target new_content : string)
  : M state string :=
  let payload :=
    BObj [("filepath", BStr filepath);
          ("patch", BObj [("type", BStr patch_type);
                          ("target", BStr patch_target);
                          ("content", BStr new_content)])] in
  let rq := Post (obsidian_api_url e ++ "/patch_content") authorization payload in
  try_except
    (perform (VaultCall rq) (vault e rq) ;;;
     ret "Content successfully patched.")
    (except_RequestException "Error patching content to Obsidian: ").

Definition search_obsidian_vault (query : string) : M state string :=
  let rq := Post (obsidian_api_url e ++ "/search") authorization
                 (BObj [("query", BStr query)]) in
  try_except
    (response <~ perform (VaultCall rq) (vault e rq) ;;
     results <~ lift (Json.dict_get response "results" (Json.JList [])) ;;
     if Json.truthy results then
       items <~ lift (Json.iterate results) ;;
       ret (bullets ("### Search Results for `" ++ query ++ "`" ++ nl)
                    (map format items))
     else ret ("No results found for query `" ++ query ++ "`."))
    (except_RequestException "Error searching Obsidian vault: ").

Definition delete_obsidian_file (filepath : string) : M state string :=
  let rq := Post (obsidian_api_url e ++ "/delete_file") authorization
                 (BObj [("filepath", BStr filepath)]) in
  try_except
    (perform (VaultCall rq) (vault e rq) ;;;
     ret ("File `" ++ filepath ++ "` successfully deleted."))
    (except_RequestException "Error deleting file from Obsidian: ").

Definition image_entry (acc : string) (i : image) : string :=
  acc ++ "- **ID:** `" ++ image_short_id i ++ "`" ++ nl
      ++ "  - **Tags:** `" ++ join ", " (image_tags i) ++ "`" ++ nl.

Definition list_docker_images : M state string :=
  client <~ get_docker_client ;;
  match client with
  | None => ret "Failed to connect to Docker."
  | Some _ =>
      try_except
        (images <~ perform ImagesList (images_list e) ;;
         match images with
         | [] => ret "No Docker images found."
         | _ => ret (fold_left image_entry images ("### Docker Images" ++ nl))
         end)
        (except_Exception "Error listing images: ")
  end.

Definition container_entry (acc : string) (c : container) : string :=
  acc ++ "- **Name:** `" ++ container_name c ++ "`" ++ nl
      ++ "  - **ID:** `" ++ container_short_id c ++ "`" ++ nl
      ++ "  - **Image:** `"
      ++ match image_tags (container_image c) with
         | t :: _ => t
         | [] => "N/A"
         end ++ "`" ++ nl
      ++ "  - **Status:** `" ++ container_status c ++ "`" ++ nl.

Definition list_docker_containers : M state string :=
  client <~ get_docker_client ;;
  match client with
  | None => ret "Failed to connect to Docker."
  | Some _ =>
      try_except
        (containers <~ perform ContainersList (containers_list e) ;;
         match containers with
         | [] => ret "No running containers found."
         | _ => ret (fold_left container_entry containers
                               ("### Running Docker Containers" ++ nl))
         end)
        (except_Exception "Error listing containers: ")
  end.

Definition create_docker_container (image_name : string) : M state string :=
  client <~ get_docker_client ;;
  match client with
  | None => ret "Failed to connect to Docker."
  | Some _ =>
      try_except
        (append_message
           (msg Assistant ("Creating container from image `" ++ image_name ++ "`...")) ;;;
         set_rerun ;;;
         try_except
           (perform (ImagesGet image_name) (images_get e image_name))
           (fun x =>
              match x with
              | ImageNotFound _ =>
                  Some (append_message
                          (msg Assistant ("Image `" ++ image_name
                             ++ "` not found locally. Pulling from Docker Hub...")) ;;;
                        perform (ImagesPull image_name) (images_pull e image_name))
              | _ => None
              end) ;;;
         container <~ perform (ContainersRun image_name) (containers_run e image_name) ;;
         ret ("Container `" ++ container_name container
              ++ "` successfully created and started from `" ++ image_name
              ++ "`. ID: `" ++ container_short_id container ++ "`"))
        (fun x =>
           match x with
           | ImageNotFound _ =>
               Some (ret ("Error: Image `" ++ image_name ++ "` not found on Docker Hub."))
           | _ => except_Exception "Error creating container: " x
           end)
  end.

(** The adapter call an action stands for. *)
Definition run (a : action) : M state string :=
  match a with
  | Help => ret help_text
  | ListFilesInVault => list_files_in_vault
  | ListFilesInDir d => list_files_in_dir d
  | GetFileContents f => get_file_contents f
  | AppendContent f c => append_content f c
  | PatchContent f t g c => patch_content f t g c
  | SearchObsidianVault q => search_obsidian_vault q
  | DeleteObsidianFile f => delete_obsidian_file f
  | ListDockerImages => list_docker_images
  | ListDockerContainers => list_docker_containers
  | CreateDockerContainer i => create_docker_container i
  | Usage text => ret text
  | Unrecognized => ret unrecognized_text
  end.

(** The [try]/[except IndexError] of the two guarded branches also encloses
    the adapter call. *)
Definition respond (a : action) : M state string :=
  match a with
  | AppendContent _ _ =>
      try_except (run a)
        (fun x => match x with
                  | IndexError => Some (ret usage_append)
                  | _ => None
                  end)
  | PatchContent _ _ _ _ =>
      try_except (run a)
        (fun x => match x with
                  | IndexError => Some (ret usage_patch)
                  | _ => None
                  end)
  | _ => run a
  end.

(** Lines 327-400: one prompt through the script. *)
Definition turn (prompt : string) : M state unit :=
  append_message (msg User prompt) ;;;
  show (UiMarkdown User prompt) ;;;
  a <~ lift (dispatch prompt) ;;
  response_content <~ respond a ;;
  show (UiMarkdown Assistant response_content) ;;;
  append_message (msg Assistant response_content).

End Adapters.

(** [if "messages" not in st.session_state: st.session_state.messages = []] *)
Definition initial_state : state := State [] false [] [].

(** The adapters that only talk to the vault or list container-runtime
    objects; [create_docker_container] is the one left out. *)
Definition reads_only (a : action) : bool :=
  match a with
  | CreateDockerContainer _ => false
  | _ => true
  end.

(** The request each vault adapter builds (lines 47-48, 75-84, 108-117,
    134-143, 162-180, 196-205, 229-238). *)
Definition vault_request_of (e : env) (a : action) : option vault_request :=
  match a with
  | ListFilesInVault =>
      Some (Get (obsidian_api_url e ++ "/vault/") (authorization e))
  | ListFilesInDir d =>
      Some (Post (obsidian_api_url e ++ "/list_files_in_dir") (authorization e)
                 (BObj [("directory", BStr d)]))
  | GetFileContents f =>
      Some (Post (obsidian_api_url e ++ "/get_file_contents") (authorization e)
                 (BObj [("filepath", BStr f)]))
  | AppendContent f c =>
      Some (Post (obsidian_api_url e ++ "/append_content") (authorization e)
                 (BObj [("filepath", BStr f); ("content", BStr c)]))
  | PatchContent f t g c =>
      Some (Post (obsidian_api_url e ++ "/patch_content") (authorization e)
                 (BObj [("filepath", BStr f);
                        ("patch", BObj [("type", BStr t); ("target", BStr g);
                                        ("content", BStr c)])]))
  | SearchObsidianVault q =>
      Some (Post (obsidian_api_url e ++ "/search") (authorization e)
                 (BObj [("query", BStr q)]))
  | DeleteObsidianFile f =>
      Some (Post (obsidian_api_url e ++ "/delete_file") (authorization e)
                 (BObj [("filepath", BStr f)]))
  | _ => None
  end.

(** The text each vault adapter puts before the exception of a failed
    request (lines 63, 96, 121, 147, 184, 217, 242). *)
Definition failure_text (a : action) : string :=
  match a with
  | ListFilesInVault => "Error listing files from Obsidian: "
  | ListFilesInDir _ => "Error listing files in directory from Obsidian: "
  | GetFileContents _ => "Error reading file from Obsidian: "
  | AppendContent _ _ => "Error appending content to Obsidian: "
  | PatchContent _ _ _ _ => "Error patching content to Obsidian: "
  | SearchObsidianVault _ => "Error searching Obsidian vault: "
  | DeleteObsidianFile _ => "Error deleting file from Obsidian: "
  | _ => ""
  end.

(** The four adapters that read the body of the answer. *)
Definition reads_body (a : action) : bool :=
  match a with
  | ListFilesInVault | ListFilesInDir _ | GetFileContents _
  | SearchObsidianVault _ => true
  | _ => false
  end.

(** The three adapters that need a container-runtime client. *)
Definition uses_docker (a : action) : bool :=
  match a with
  | ListDockerImages | ListDockerContainers | CreateDockerContainer _ => true
  | _ => false
  end.

(** The characters of a text. *)
Definition chars (s : string) : list ascii := list_ascii_of_string s.

End CommandChat.

(** ** src/mcp_chatbot.py *)

Module ToolChat.
Import Py Conversation.

(** The JSON values of [Json], under the names this module uses. *)
Abbreviation json := Json.json.
Abbreviation JNull := Json.JNull.
Abbreviation JBool := Json.JBool.
Abbreviation JNum := Json.JNum.
Abbreviation JStr := Json.JStr.
Abbreviation JList := Json.JList.
Abbreviation JDict := Json.JDict.
Abbreviation lookup := Json.lookup.
Abbreviation type_name := Json.type_name.

(** A tool schema of [TOOLS]: name, description, the properties (name, type,
    description) and the required names. *)
Record tool_def : Type := ToolDef {
  td_name : string;
  td_description : string;
  td_properties : list (string * (string * string));
  td_required : list string
}.

Definition TOOLS : list tool_def :=
  [ ToolDef "list_files" "Get a list of all files from the Obsidian vault" [] [];
    ToolDef "summarize_file" "Summarize the content of a specific markdown file"
      [("filename", ("string", "Name of the markdown file (e.g. 'xyz.md')"))]
      ["filename"];
    ToolDef "create_summary_note"
      "Create a summary note that summarizes all files and links to each file"
      [] [] ].

(** The body posted to [CHAT_URL]. *)
Record chat_request : Type := ChatRequest {
  model : string;
  req_messages : list message;
  tools : option (list tool_def);
  stream : bool
}.

(** The body the inference server answers with: [message.content],
    [message.tool_calls] and the singular [message.tool], each optional;
    a tool call is [{function: {name, arguments}}], the arguments absent,
    a string or structured. *)
Record function_call : Type := FunctionCall {
  fn_name : string;
  arguments : option json
}.

Record tool_call : Type := ToolCall { function : function_call }.

Record chat_message : Type := ChatMessage {
  msg_content : option string;
  tool_calls : option (list tool_call);
  tool : option tool_call
}.

Record response : Type := Response { resp_message : option chat_message }.

Inductive vault_request : Type :=
| Get (url authorization : string)
| Post (url authorization : string) (json_body : option json).

Inductive ui_event : Type :=
| UiMarkdown (r : role) (text : string)
| UiError (text : string)
| UiJson (data : response).

(** The configuration, the functions of the [json] module and of [str] the
    script calls, and what the two services answer.  A [Raise] answer
    stands for a failure of the request or of [raise_for_status]. *)
Record env : Type := Env {
  MCP_BASE : string;
  YOUR_ACCESS_TOKEN : string;
  json_loads : string -> result json;
  json_dumps : json -> string;
  str_json : json -> string;
  chat : chat_request -> result response;
  vault : vault_request -> result json
}.

(** [st.session_state["messages"]], the screen, and the requests sent to
    the inference server and to the vault. *)
Record state : Type := State {
  messages : list message;
  ui : list ui_event;
  requests : list chat_request;
  vault_calls : list vault_request
}.

Definition append_message (m : message) : M state unit :=
  modify (fun s => State (messages s ++ [m]) (ui s) (requests s) (vault_calls s)).

Definition show (ev : ui_event) : M state unit :=
  modify (fun s => State (messages s) (ui s ++ [ev]) (requests s) (vault_calls s)).

Definition get_messages : M state (list message) :=
  fun s => (Ok (messages s), s).

Inductive adapter : Type := list_files | summarize_file | create_summary_note.

Definition FUNCTION_MAP : list (string * adapter) :=
  [ ("list_files", list_files);
    ("summarize_file", summarize_file);
    ("create_summary_note", create_summary_note) ].

Definition adapter_name (a : adapter) : string :=
  match a with
  | list_files => "list_files"
  | summarize_file => "summarize_file"
  | create_summary_note => "create_summary_note"
  end.

(** The parameters of the adapter functions (lines 68, 74, 85). *)
Definition parameters (a : adapter) : list string :=
  match a with
  | list_files => []
  | summarize_file => ["filename"]
  | create_summary_note => []
  end.

(** The first keyword of a call that is no parameter of the callee. *)
Fixpoint unexpected_keyword (params : list string) (kwargs : list (string * json))
  : option string :=
  match kwargs with
  | [] => None
  | (k, _) :: rest =>
      if existsb (String.eqb k) params then unexpected_keyword params rest
      else Some k
  end.

(** [d[key]] *)
Definition getkey {A} (key : string) (o : option A) : result A :=
  match o with
  | Some v => Ok v
  | None => Raise (KeyError key)
  end.

(** Lines 128-133 and 180-184: the two request bodies. *)
Definition payload (history : list message) : chat_request :=
  ChatRequest "llama3.1:latest" history (Some TOOLS) false.

Definition followup_payload (history : list message) : chat_request :=
  ChatRequest "llama3.1:latest" history None false.

Section Turn.
Variable e : env.

Definition authorization : string := "Bearer " ++ YOUR_ACCESS_TOKEN e.

(** [requests.post(CHAT_URL, json=payload)], [raise_for_status()], [.json()] *)
Definition post_chat (payload : chat_request) : M state response :=
  fun s => (chat e payload,
            State (messages s) (ui s) (requests s ++ [payload]) (vault_calls s)).

(** A vault request with [raise_for_status()] and [.json()]. *)
Definition send (rq : vault_request) : M state json :=
  fun s => (vault e rq,
            State (messages s) (ui s) (requests s) (vault_calls s ++ [rq])).

(** [r["message"]["content"]] *)
Definition content_of (r : response) : result string :=
  m <- getkey "message" (resp_message r) ;;
  getkey "content" (msg_content m).

(** The call of [FUNCTION_MAP[fn_name]] on the unpacked [fn_args]: the
    keyword arguments are bound to the parameters of the adapter (a
    [TypeError] when [fn_args] is no mapping, names a keyword the adapter
    does not have, or leaves a parameter out), then its body runs. *)
Definition invoke (a : adapter) (fn_args : json) : M state json :=
  match fn_args with
  | JDict kwargs =>
      match unexpected_keyword (parameters a) kwargs with
      | Some k =>
          raise (TypeError (adapter_name a
                   ++ "() got an unexpected keyword argument '" ++ k ++ "'"))
      | None =>
          match a with
          | list_files => send (Get (MCP_BASE e ++ "/vault/") authorization)
          | summarize_file =>
              match lookup "filename" kwargs with
              | Some filename =>
                  send (Post (MCP_BASE e ++ "/summarize") authorization
                             (Some (JDict [("filename", filename)])))
              | None =>
                  raise (TypeError "summarize_file() missing 1 required positional argument: 'filename'")
              end
          | create_summary_note =>
              send (Post (MCP_BASE e ++ "/summary-note") authorization None)
          end
      end
  | _ =>
      raise (TypeError (adapter_name a
               ++ "() argument after ** must be a mapping, not "
               ++ type_name fn_args))
  end.

(** Lines 156-161: [args = tool_call["function"].get("arguments", "{}")],
    decoded with [json.loads] when it is a string, used as it is
    otherwise. *)
Definition decode_arguments (tc : tool_call) : result json :=
  let args := match arguments (function tc) with
              | Some a => a
              | None => JStr "{}"
              end in
  match args with
  | JStr text => json_loads e text
  | _ => Ok args
  end.

(** Lines 155-198: the branch [if tool_call:]. *)
Definition handle_tool_call (tc : tool_call) : M state unit :=
  let fn := fn_name (function tc) in
  fn_args <~ lift (decode_arguments tc) ;;
  show (UiMarkdown Assistant
          ("➡️ Calling tool: `" ++ fn ++ "` with args `" ++ str_json e fn_args ++ "`")) ;;;
  match lookup fn FUNCTION_MAP with
  | Some a =>
      try_except
        (result <~ invoke a fn_args ;;
         let result_str := json_dumps e result in
         append_message (Message Tool result_str (Some fn)) ;;;
         show (UiMarkdown Tool
                 ("**" ++ fn ++ " result:**" ++ PyStr.nl ++ "```" ++ PyStr.nl
                  ++ result_str ++ PyStr.nl ++ "```")) ;;;
         history <~ get_messages ;;
         followup <~ post_chat (followup_payload history) ;;
         final_msg <~ lift (content_of followup) ;;
         append_message (msg Assistant final_msg) ;;;
         show (UiMarkdown Assistant final_msg))
        (fun x => Some (show (UiError ("Tool call `" ++ fn ++ "` failed: "
                                       ++ str_exn x))))
  | None => show (UiError ("Unknown tool requested: " ++ fn))
  end.

(** Lines 142-151: which tool call, if any, the response asks for. *)
Definition select_tool_call (data : response) : option tool_call :=
  match resp_message data with
  | None => None
  | Some m =>
      match tool_calls m with
      | Some (tc :: _) => Some tc
      | Some [] => None
      | None => tool m
      end
  end.

(** Lines 121-205: one prompt through the script. *)
Definition turn (prompt : string) : M state unit :=
  append_message (msg User prompt) ;;;
  show (UiMarkdown User prompt) ;;;
  history <~ get_messages ;;
  data <~ post_chat (payload history) ;;
  show (UiJson data) ;;;
  match select_tool_call data with
  | Some tc => handle_tool_call tc
  | None =>
      final_msg <~ lift (content_of data) ;;
      append_message (msg Assistant final_msg) ;;;
      show (UiMarkdown Assistant final_msg)
  end.

End Turn.

Definition system_prompt : string :=
  "You are an assistant for Obsidian that can call APIs via tools. "
  ++ "If the user asks about files, summaries, or notes, you MUST call the appropriate tool. "
  ++ "Never answer from your own knowledge when a tool exists.".

(** Lines 105-115 *)
Definition initial_state : state := State [msg System system_prompt] [] [] [].

(** Lines 117-119: the stored messages are put on the screen again. *)
Definition replay : M state unit :=
  fun s =>
    (Ok tt,
     State (messages s)
           (ui s ++ map (fun m => UiMarkdown (role_of m) (content m)) (messages s))
           (requests s) (vault_calls s)).

(** A run of the script: the replay, then
    [if prompt := st.chat_input(...)] with the input of the user, if there
    is one. *)
Definition script (e : env) (input : option string) : M state unit :=
  replay ;;;
  match input with
  | None => ret tt
  | Some EmptyString => ret tt
  | Some prompt => turn e prompt
  end.

(** The sessions a sequence of script runs can produce, each run in an
    environment of its own. *)
Inductive reachable : state -> Prop :=
| reach_initial : reachable initial_state
| reach_run (e : env) (input : option string) (s : state) :
    reachable s -> reachable (snd (script e input s)).

(** Every tool message of the store comes right after a message of role
    [r]; [prev] is the role of the message before the list. *)
Fixpoint tool_after (r : role) (prev : option role) (l : list message) : bool :=
  match l with
  | [] => true
  | m :: l' =>
      (if role_eqb (role_of m) Tool
       then match prev with
            | Some p => role_eqb p r
            | None => false
            end
       else true)
      && tool_after r (Some (role_of m)) l'
  end.

(** Every tool message of the store is the last one or comes right before
    an assistant or a user message. *)
Fixpoint tool_before_reply (l : list message) : bool :=
  match l with
  | [] => true
  | m :: l' =>
      (if role_eqb (role_of m) Tool
       then match l' with
            | [] => true
            | n :: _ => role_eqb (role_of n) Assistant || role_eqb (role_of n) User
            end
       else true)
      && tool_before_reply l'
  end.

(** The errors on the screen. *)
Definition errors (events : list ui_event) : list string :=
  flat_map (fun ev => match ev with UiError text => [text] | _ => [] end) events.

End ToolChat.

(** ** src/mcp_tool_calling_support.py *)

Module ToolSupport.
Import Py Conversation.

(** Lines 17-27: the models tested when the server lists none. *)
Definition MODELS_TO_TEST : list ToolChat.json :=
  map ToolChat.JStr
    [ "llama3.1:latest"; "llama2:latest"; "nomic-embed-text:latest";
      "mxbai-embed-large:latest"; "deepseek-coder:latest"; "qwen2.5:latest";
      "llama3:latest"; "mistral:latest"; "gemma3:latest" ].

(** An HTTP response: [status_code], [.json()] (which can raise) and
    [.text]. *)
Record reply : Type := Reply {
  status_code : nat;
  json_body : result ToolChat.json;
  text : string
}.

(** The body [test_model_tools] posts: the model, two fixed messages, one
    tool of type [openapi] with its specification text, no streaming. *)
Record payload : Type := Payload {
  model : ToolChat.json;
  messages : list message;
  tools : list (string * string);
  stream : bool
}.

(** The server, and the two conversions to text the prints use: [str] of a
    model name and [repr] of the list of names. *)
Record env : Type := Env {
  OLLAMA_BASE : string;
  get_models : result reply;
  post_chat : payload -> result reply;
  str_json : ToolChat.json -> string;
  repr_models : list ToolChat.json -> string
}.

(** A result dictionary of [test_model_tools]: [model] and [status], and
    the keys [reason], [http_status], [sample_response], [body] where the
    branch sets them. *)
Inductive sample : Type :=
| SampleJson (content : ToolChat.json)
| SampleText (content : string).

Record report : Type := Report {
  r_model : ToolChat.json;
  r_status : string;
  r_reason : option string;
  r_http_status : option nat;
  r_sample_response : option sample;
  r_body : option string
}.

(** [s[:n]] *)
Definition take (n : nat) (s : string) : string := String.substring 0 n s.

(** [str(n)] for a status code. *)
Definition str_nat (n : nat) : string := NilZero.string_of_uint (Nat.to_uint n).

(** Lines 37-42: one item of the listing. *)
Definition add_name (names : list ToolChat.json) (item : ToolChat.json)
  : list ToolChat.json :=
  match item with
  | ToolChat.JDict d =>
      match ToolChat.lookup "name" d with
      | Some n => (names ++ [n])%list
      | None => names
      end
  | ToolChat.JStr _ => (names ++ [item])%list
  | _ => names
  end.

(** Lines 30-47: the list of models after the attempt to read it from the
    server; any exception keeps the static list. *)
Definition models_to_test (e : env) : list ToolChat.json :=
  match get_models e with
  | Raise _ => MODELS_TO_TEST
  | Ok resp =>
      if Nat.eqb (status_code resp) 200 then
        match json_body resp with
        | Raise _ => MODELS_TO_TEST
        | Ok data =>
            let names :=
              match data with
              | ToolChat.JList items => fold_left add_name items []
              | _ => []
              end in
            match names with
            | [] => MODELS_TO_TEST
            | _ => names
            end
        end
      else MODELS_TO_TEST
  end.

(** [textwrap.dedent] of the specification text of lines 61-67. *)
Definition tiny_spec : string :=
  PyStr.nl ++ "openapi: 3.0.0" ++ PyStr.nl ++ "info:" ++ PyStr.nl
  ++ "  title: tiny" ++ PyStr.nl ++ "  version: 1.0.0" ++ PyStr.nl
  ++ "paths: {}" ++ PyStr.nl.

Definition test_payload (model_name : ToolChat.json) : payload :=
  Payload model_name
    [ msg System "You are a tiny test assistant.";
      msg User "Test: can you accept tools? (this is a machine test)" ]
    [("openapi", tiny_spec)]
    false.

(** Lines 50-90. *)
Definition test_model_tools (e : env) (model_name : ToolChat.json) : report :=
  match post_chat e (test_payload model_name) with
  | Raise x =>
      Report model_name "error" (Some ("request exception: " ++ str_exn x))
             None None None
  | Ok r =>
      if Nat.eqb (status_code r) 200 then
        let content :=
          match json_body r with
          | Ok c => SampleJson c
          | Raise _ => SampleText (take 1000 (text r))
          end in
        Report model_name "ok" None (Some 200) (Some content) None
      else
        let text := match text r with
                    | EmptyString => "<no body>"
                    | t => t
                    end in
        Report model_name "rejected" None (Some (status_code r)) None
               (Some (take 1000 text))
  end.

(** Lines 99-107: what the loop prints for one model. *)
Definition progress (e : env) (m : ToolChat.json) (res : report) : string :=
  " -> Testing " ++ str_json e m ++ " ..."
  ++ (if String.eqb (r_status res) "ok" then " ACCEPTED" ++ PyStr.nl
      else if String.eqb (r_status res) "rejected" then
        " REJECTED (status "
        ++ match r_http_status res with
           | Some n => str_nat n
           | None => "None"
           end ++ ")" ++ PyStr.nl
      else " ERROR" ++ PyStr.nl).

(** Lines 98-107: the loop over the models; the reports and the text
    printed so far. *)
Definition test_all (e : env) (models : list ToolChat.json) (out : string)
  : list report * string :=
  fold_left
    (fun acc m =>
       let res := test_model_tools e m in
       ((fst acc ++ [res])%list, snd acc ++ progress e m res))
    models ([], out).

(** [r.get('reason') or r.get('body')[:200]] *)
Definition excerpt (r : report) : result string :=
  match r_reason r with
  | Some (String c t) => Ok (String c t)
  | _ =>
      match r_body r with
      | Some b => Ok (take 200 b)
      | None => Raise (TypeError "'NoneType' object is not subscriptable")
      end
  end.

(** Lines 109-116: the summary line of one report. *)
Definition summary_line (e : env) (r : report) : result string :=
  let head := "- " ++ str_json e (r_model r) ++ ": " ++ r_status r
              ++ match r_http_status r with
                 | Some n => " (http " ++ str_nat n ++ ")"
                 | None => ""
                 end in
  if String.eqb (r_status r) "ok" then Ok (head ++ PyStr.nl)
  else x <- excerpt r ;; Ok (head ++ " -> " ++ x ++ PyStr.nl).

Fixpoint summary (e : env) (results : list report) (out : string)
  : result string :=
  match results with
  | [] => Ok out
  | r :: rest => line <- summary_line e r ;; summary e rest (out ++ line)
  end.

Definition notes : string :=
  PyStr.nl ++ "Notes:" ++ PyStr.nl
  ++ " - If you see a response body containing 'does not support tools' or HTTP 400, the model build does not support Ollama tools."
  ++ PyStr.nl
  ++ " - Embedding models (nomic-embed-text, mxbai-embed-large) generally do not support tools — they are for embeddings."
  ++ PyStr.nl
  ++ PyStr.nl ++ "If you want, paste the script output here and I’ll help interpret it."
  ++ PyStr.nl.

(** Lines 93-120: the reports and everything printed. *)
Definition main (e : env) : result (list report * string) :=
  let models := models_to_test e in
  let header := "OLLAMA base: " ++ OLLAMA_BASE e ++ PyStr.nl
                ++ "Testing models: " ++ repr_models e models ++ PyStr.nl
                ++ PyStr.nl in
  let tested := test_all e models header in
  out <- summary e (fst tested)
           (snd tested ++ PyStr.nl ++ "Summary:" ++ PyStr.nl ++ PyStr.nl) ;;
  Ok (fst tested, out ++ notes).

End ToolSupport.

(** ** Concrete sessions used by the examples below *)

Module Samples.
Import Py Conversation.

Definition dq : string := String (ascii_of_nat 34) "".

(** Characters beyond ASCII: the no-break space, the next-line control,
    and the letters E-acute and e-acute, by their code points. *)
Definition nbsp : string := String (ascii_of_nat 160) "".
Definition E_acute : string := String (ascii_of_nat 201) "".
Definition e_acute : string := String (ascii_of_nat 233) "".

(** The text [{"filename": "a.md"}]. *)
Definition filename_text : string :=
  "{" ++ dq ++ "filename" ++ dq ++ ": " ++ dq ++ "a.md" ++ dq ++ "}".

Definition filename_args : list (string * ToolChat.json) :=
  [("filename", ToolChat.JStr "a.md")].

(** A decoder that knows the two argument texts of the examples. *)
Definition sample_loads (text : string) : result ToolChat.json :=
  if String.eqb text filename_text then Ok (ToolChat.JDict filename_args)
  else if String.eqb text "{}" then Ok (ToolChat.JDict [])
  else Raise (JSONDecodeError "Expecting property name enclosed in double quotes").

(** A compact printer, standing for [json.dumps] and for [str]. *)
Fixpoint sample_dumps (v : ToolChat.json) : string :=
  match v with
  | ToolChat.JNull => "null"
  | ToolChat.JBool true => "true"
  | ToolChat.JBool false => "false"
  | ToolChat.JNum _ => "0"
  | ToolChat.JStr s => dq ++ s ++ dq
  | ToolChat.JList l =>
      "[" ++ String.concat ", " (map sample_dumps l) ++ "]"
  | ToolChat.JDict d =>
      "{" ++ String.concat ", "
               (map (fun kv => dq ++ fst kv ++ dq ++ ": " ++ sample_dumps (snd kv)) d)
          ++ "}"
  end.

(** An environment from the answers to the first request (the one with
    tools), to the follow-up request and to the vault. *)
Definition tool_env (first followup : result ToolChat.response)
    (vault : result ToolChat.json) : ToolChat.env :=
  ToolChat.Env "https://127.0.0.1:27124" "secret"
    sample_loads sample_dumps sample_dumps
    (fun rq => match ToolChat.tools rq with
               | Some _ => first
               | None => followup
               end)
    (fun _ => vault).

Definition says (text : string) : ToolChat.response :=
  ToolChat.Response (Some (ToolChat.ChatMessage (Some text) None None)).

Definition asks (fn : string) (args : option ToolChat.json) : ToolChat.response :=
  ToolChat.Response
    (Some (ToolChat.ChatMessage (Some "")
             (Some [ToolChat.ToolCall (ToolChat.FunctionCall fn args)]) None)).

Definition asks_singular (fn : string) (args : option ToolChat.json)
  : ToolChat.response :=
  ToolChat.Response
    (Some (ToolChat.ChatMessage (Some "") None
             (Some (ToolChat.ToolCall (ToolChat.FunctionCall fn args))))).

Definition vault_files : ToolChat.json :=
  ToolChat.JDict [("files", ToolChat.JList [ToolChat.JStr "a.md"])].

Definition server_error : exn :=
  RequestException "500 Server Error: Internal Server Error".

(** The model answers directly. *)
Definition env_direct : ToolChat.env :=
  tool_env (Ok (says "Hello!")) (Ok (says "unused")) (Ok vault_files).

(** The model asks for [list_files], then summarises. *)
Definition env_round_trip : ToolChat.env :=
  tool_env (Ok (asks "list_files" (Some (ToolChat.JDict []))))
           (Ok (says "You have one note: a.md"))
           (Ok vault_files).

(** The model asks for [list_files]; the follow-up request fails. *)
Definition env_followup_down : ToolChat.env :=
  tool_env (Ok (asks "list_files" (Some (ToolChat.JDict []))))
           (Raise server_error)
           (Ok vault_files).

(** The first request fails. *)
Definition env_first_down : ToolChat.env :=
  tool_env (Raise server_error) (Raise server_error) (Ok vault_files).

(** The model asks for a tool the registry does not have. *)
Definition env_unknown_tool : ToolChat.env :=
  tool_env (Ok (asks "delete_everything" (Some (ToolChat.JDict []))))
           (Ok (says "unused"))
           (Ok vault_files).

(** The model sends argument text that does not decode. *)
Definition env_bad_arguments : ToolChat.env :=
  tool_env (Ok (asks "list_files" (Some (ToolChat.JStr "{bad"))))
           (Ok (says "unused"))
           (Ok vault_files).

(** The model answers with the singular [tool] entry and no list. *)
Definition env_singular : ToolChat.env :=
  tool_env (Ok (asks_singular "list_files" (Some (ToolChat.JDict []))))
           (Ok (says "You have one note: a.md"))
           (Ok vault_files).

Definition question : string := "Which notes do I have?".

(** A container runtime that has no local copy of the image and pulls it. *)
Definition docker_env : CommandChat.env :=
  CommandChat.Env "http://127.0.0.1:27123" "secret"
    (fun _ => Ok (CommandChat.body_of
                    (CommandChat.VaultResponse (Some ["a.md"; "b.md"]) None None)))
    (Ok tt)
    (Ok [])
    (Ok [])
    (fun _ => Raise (ImageNotFound "404 Client Error: Not Found"))
    (fun _ => Ok tt)
    (fun _ => Ok (CommandChat.Container "brave_newton" "3f2a9c1d4e"
                    (CommandChat.Image "sha256:aa" ["alpine:latest"]) "created"))
    sample_dumps.

(** A vault that cannot be reached and a container runtime without
    client. *)
Definition vault_down : CommandChat.env :=
  CommandChat.Env "http://127.0.0.1:27123" "secret"
    (fun _ => Raise (RequestException "Connection refused"))
    (Raise (OtherException "Error while fetching server API version"))
    (Ok [])
    (Ok [])
    (fun _ => Ok tt)
    (fun _ => Ok tt)
    (fun _ => Raise (OtherException "unreachable"))
    sample_dumps.

(** A vault that answers every request with a JSON array where the
    adapters expect an object. *)
Definition vault_array : CommandChat.env :=
  CommandChat.Env "http://127.0.0.1:27123" "secret"
    (fun _ => Ok (Json.JList [Json.JStr "a.md"; Json.JStr "b.md"]))
    (Ok tt)
    (Ok [])
    (Ok [])
    (fun _ => Ok tt)
    (fun _ => Ok tt)
    (fun _ => Raise (OtherException "unreachable"))
    sample_dumps.

(** The model asks for [list_files] with an argument it does not take. *)
Definition env_extra_argument : ToolChat.env :=
  tool_env (Ok (asks "list_files"
                  (Some (ToolChat.JDict [("folder", ToolChat.JStr "notes")]))))
           (Ok (says "unused"))
           (Ok vault_files).

(** The model answers with an empty tool-call list beside a singular
    [tool] entry. *)
Definition env_empty_list : ToolChat.env :=
  tool_env
    (Ok (ToolChat.Response
           (Some (ToolChat.ChatMessage (Some "No tool needed.") (Some [])
                    (Some (ToolChat.ToolCall
                             (ToolChat.FunctionCall "list_files" None)))))))
    (Ok (says "unused"))
    (Ok vault_files).

(** The model answers with a body that has no message. *)
Definition env_no_message : ToolChat.env :=
  tool_env (Ok (ToolChat.Response None)) (Ok (says "unused")) (Ok vault_files).

(** A server that lists two models, accepts tools for the first and
    rejects them with an empty body for any other. *)
Definition support_env : ToolSupport.env :=
  ToolSupport.Env "http://localhost:11434"
    (Ok (ToolSupport.Reply 200
           (Ok (ToolChat.JList
                  [ToolChat.JDict [("name", ToolChat.JStr "qwen2.5:latest")];
                   ToolChat.JDict [("name", ToolChat.JStr "mistral:latest")]]))
           "[...]"))
    (fun p =>
       match ToolSupport.model p with
       | ToolChat.JStr "qwen2.5:latest" =>
           Ok (ToolSupport.Reply 200 (Ok (ToolChat.JDict [])) "{}")
       | _ =>
           Ok (ToolSupport.Reply 400 (Raise (JSONDecodeError "Expecting value")) "")
       end)
    sample_dumps
    (fun l => "[" ++ String.concat ", " (map sample_dumps l) ++ "]").

End Samples.

(** * Properties *)

(** ** Facts about the string methods *)

Module PyStrFacts.
Import PyStr.

#[global] Arguments isspace : simpl never.
#[global] Arguments isupper : simpl never.
#[global] Arguments lower_char : simpl never.

Ltac each_char c :=
  destruct c as [[] [] [] [] [] [] [] []].

Lemma isupper_lower_char (c : ascii) : isupper (lower_char c) = false.
Proof. each_char c; reflexivity. Qed.

Lemma isspace_lower_char (c : ascii) : isspace (lower_char c) = isspace c.
Proof. each_char c; reflexivity. Qed.

Lemma lower_char_fixed (c : ascii) : isupper c = false -> lower_char c = c.
Proof. unfold lower_char; intros ->; reflexivity. Qed.

Lemma space_is_space (c : ascii) : isspace c = false -> c <> " "%char.
Proof. intros H ->; discriminate H. Qed.

Lemma append_empty (s : string) : s ++ "" = s.
Proof. induction s; simpl; congruence. Qed.

Lemma startswith_app (p r : string) : startswith p (p ++ r) = true.
Proof.
  induction p as [|c p IH]; cbn [startswith append]; [reflexivity|].
  now rewrite Ascii.eqb_refl.
Qed.

Lemma startswith_space (c : ascii) (s : string) :
  c <> " "%char -> startswith " " (String c s) = false.
Proof.
  intros H; cbn [startswith].
  destruct (Ascii.eqb_spec " " c); [congruence | reflexivity].
Qed.

Lemma drop_app (p r : string) : drop (String.length p) (p ++ r) = r.
Proof. induction p; simpl; auto. Qed.

(** *** [lower] *)

Lemma lower_app (a b : string) : lower (a ++ b) = lower a ++ lower b.
Proof. induction a; simpl; congruence. Qed.

Lemma no_upper_lower (s : string) : no_upper (lower s) = true.
Proof.
  induction s as [|c s IH]; simpl; [reflexivity|].
  now rewrite isupper_lower_char, IH.
Qed.

Lemma lower_no_upper (s : string) : no_upper s = true -> lower s = s.
Proof.
  induction s as [|c s IH]; simpl; [reflexivity|].
  intros H; apply andb_true_iff in H as [Hc Hs].
  apply negb_true_iff in Hc.
  now rewrite (lower_char_fixed _ Hc), IH.
Qed.

Lemma lower_join (sep : string) (l : list string) :
  lower (join sep l) = join (lower sep) (map lower l).
Proof.
  unfold join. induction l as [|x [|y l] IH]; simpl in *; try reflexivity.
  now rewrite !lower_app, IH.
Qed.

Lemma no_space_lower (s : string) : no_space (lower s) = no_space s.
Proof.
  induction s as [|c s IH]; simpl; [reflexivity|].
  now rewrite isspace_lower_char, IH.
Qed.

Lemma is_word_lower (s : string) : is_word (lower s) = is_word s.
Proof.
  destruct s; simpl; [reflexivity|].
  now rewrite isspace_lower_char, no_space_lower.
Qed.

(** *** [strip] *)

Lemma rstrip_app_fixed (a b : string) :
  rstrip a = a -> rstrip (a ++ b) = a ++ rstrip b.
Proof.
  induction a as [|c a IH]; simpl; [reflexivity|].
  destruct (rstrip a) as [|d r] eqn:Ha.
  - destruct (isspace c) eqn:Hc; [discriminate|].
    intros H; injection H as <-. simpl.
    destruct (rstrip b); reflexivity.
  - intros H; injection H as H.
    rewrite (IH H), <- H. reflexivity.
Qed.

Lemma rstrip_no_space (s : string) : no_space s = true -> rstrip s = s.
Proof.
  induction s as [|c s IH]; simpl; [reflexivity|].
  intros H; apply andb_true_iff in H as [Hc Hs].
  apply negb_true_iff in Hc. rewrite (IH Hs), Hc.
  destruct s; reflexivity.
Qed.

Lemma rstrip_word (w : string) : is_word w = true -> rstrip w = w.
Proof. destruct w; [discriminate|]. apply rstrip_no_space. Qed.

Lemma lstrip_app_word (w r : string) :
  is_word w = true -> lstrip (w ++ r) = w ++ r.
Proof.
  destruct w as [|c w]; simpl; [discriminate|].
  intros H; apply andb_true_iff in H as [Hc _].
  apply negb_true_iff in Hc. now rewrite Hc.
Qed.

Lemma join_cons (sep w w' : string) (ws : list string) :
  join sep (w :: w' :: ws) = w ++ sep ++ join sep (w' :: ws).
Proof. reflexivity. Qed.

Lemma join_words_not_empty (w : string) (ws : list string) :
  is_word w = true -> join " " (w :: ws) <> "".
Proof.
  intros H. destruct w; [discriminate|].
  destruct ws; [discriminate|]. rewrite join_cons. discriminate.
Qed.

(** Words joined by single spaces have nothing to strip. *)
Lemma rstrip_join_words (ws : list string) :
  Forall (fun w => is_word w = true) ws -> rstrip (join " " ws) = join " " ws.
Proof.
  induction ws as [|w ws IH]; intros H; [reflexivity|].
  inversion H as [|? ? Hw Hws]; subst.
  destruct ws as [|w' ws]; [now apply rstrip_word|].
  rewrite join_cons.
  rewrite rstrip_app_fixed by now apply rstrip_word.
  f_equal. specialize (IH Hws).
  change (" " ++ join " " (w' :: ws)) with (String " " (join " " (w' :: ws))).
  cbn [rstrip]. rewrite IH.
  destruct (join " " (w' :: ws)) eqn:E; [|reflexivity].
  exfalso. revert E. apply join_words_not_empty. now inversion Hws.
Qed.

Lemma strip_join_words (w : string) (ws : list string) :
  Forall (fun w => is_word w = true) (w :: ws) ->
  strip (join " " (w :: ws)) = join " " (w :: ws).
Proof.
  intros H. unfold strip.
  assert (L : lstrip (join " " (w :: ws)) = join " " (w :: ws)).
  { inversion H; subst. destruct ws.
    - rewrite <- (append_empty w). now apply lstrip_app_word.
    - rewrite join_cons. now apply lstrip_app_word. }
  rewrite L. now apply rstrip_join_words.
Qed.

(** *** [split] *)

Lemma find_sep_prefix (p r : string) : find_sep p (p ++ r) = Some ("", r).
Proof.
  destruct p as [|c p]; [destruct r; reflexivity|].
  change (String c p ++ r) with (String c (p ++ r)).
  cbn [find_sep].
  change (String c (p ++ r)) with (String c p ++ r).
  now rewrite startswith_app, drop_app.
Qed.

Lemma find_sep_no_space (w : string) :
  no_space w = true -> find_sep " " w = None.
Proof.
  induction w as [|c w IH]; [reflexivity|].
  cbn [no_space]. intros H; apply andb_true_iff in H as [Hc Hw].
  apply negb_true_iff, space_is_space in Hc.
  cbn [find_sep]. now rewrite (startswith_space _ _ Hc), (IH Hw).
Qed.

Lemma find_sep_word (w r : string) :
  no_space w = true -> find_sep " " (w ++ " " ++ r) = Some (w, r).
Proof.
  induction w as [|c w IH]; [reflexivity|].
  cbn [no_space]. intros H; apply andb_true_iff in H as [Hc Hw].
  apply negb_true_iff, space_is_space in Hc.
  change (String c w ++ " " ++ r) with (String c (w ++ " " ++ r)).
  cbn [find_sep]. now rewrite (startswith_space _ _ Hc), (IH Hw).
Qed.

Lemma word_no_space (w : string) : is_word w = true -> no_space w = true.
Proof. destruct w; [discriminate | trivial]. Qed.

(** Splitting a line of words on single spaces gives the words back, the
    last segment keeping what the bounded split does not reach. *)
Lemma split_join_words (n : nat) : forall (w : string) (ws : list string),
  Forall (fun w => is_word w = true) (w :: ws) ->
  split " " n (join " " (w :: ws)) =
  if (n <=? List.length ws)%nat
  then (firstn n (w :: ws) ++ [join " " (skipn n (w :: ws))])%list
  else w :: ws.
Proof.
  induction n as [|n IH]; intros w ws H; [reflexivity|].
  inversion H as [|? ? Hw Hws]; subst.
  apply word_no_space in Hw.
  destruct ws as [|w' ws].
  - change (join " " [w]) with w. cbn [split].
    now rewrite (find_sep_no_space _ Hw).
  - rewrite join_cons. cbn [split]. rewrite (find_sep_word _ _ Hw).
    rewrite (IH w' ws Hws).
    change (S n <=? List.length (w' :: ws))%nat with (n <=? List.length ws)%nat.
    destruct (n <=? List.length ws)%nat; reflexivity.
Qed.

(** *** Lower case is kept by every method that only takes text away *)








End PyStrFacts.

(** ** The command parser *)

Module CommandChatFacts.
Import Py PyStr PyStrFacts Conversation CommandChat.

Lemma normalize_keyword (kw rest : string) :
  is_word kw = true -> no_upper kw = true ->
  normalize (kw ++ rest) = kw ++ lower (rstrip rest).
Proof.
  intros Hw Hl. unfold normalize, strip.
  rewrite (lstrip_app_word _ _ Hw).
  rewrite rstrip_app_fixed by now apply rstrip_word.
  now rewrite lower_app, (lower_no_upper _ Hl).
Qed.

Lemma Forall_word_lower (ws : list string) :
  Forall (fun w => is_word w = true) ws ->
  Forall (fun w => is_word w = true) (map lower ws).
Proof.
  induction 1; simpl; constructor; auto. now rewrite is_word_lower.
Qed.

Lemma normalize_line (kw : string) (ws : list string) :
  is_word kw = true -> no_upper kw = true ->
  Forall (fun w => is_word w = true) ws ->
  normalize (join " " (kw :: ws)) = join " " (kw :: map lower ws).
Proof.
  intros Hw Hl Hws. unfold normalize.
  rewrite strip_join_words by now constructor.
  rewrite lower_join. cbn [map]. now rewrite (lower_no_upper _ Hl).
Qed.

Lemma remainder_prefix (p x : string) : remainder p (p ++ x) = Ok (strip x).
Proof.
  unfold remainder. cbn [split]. now rewrite find_sep_prefix.
Qed.

Lemma keyword_is_word (c : command_name) : is_word (keyword c) = true.
Proof. destruct c; reflexivity. Qed.

Lemma keyword_no_upper (c : command_name) : no_upper (keyword c) = true.
Proof. destruct c; reflexivity. Qed.

(** C10.  Command matching is a bare prefix test: an input that begins with
    the keyword of a command without arguments ([/help],
    [/obsidian_list_all], [/docker_list_images],
    [/docker_list_containers]), whatever text follows it, with or without a
    space in between, is dispatched to that command and not to the
    unrecognized-command result. *)
Theorem C10_zero_argument_prefix (c : command_name) (a : action) (rest : string) :
  call_of c [] = Some a -> dispatch (keyword c ++ rest) = Ok a.
Proof.
  intros H. unfold dispatch.
  rewrite normalize_keyword by (apply keyword_is_word || apply keyword_no_upper).
  destruct c; try discriminate H; injection H as <-; reflexivity.
Qed.

Lemma C10_zero_argument_prefix_witness :
  call_of CHelp [] = Some Help /\ dispatch "/helpxyz" = Ok Help.
Proof.
  split; [reflexivity|].
  apply (C10_zero_argument_prefix CHelp Help "xyz"). reflexivity.
Defined.






(** *** Lines of words *)

Lemma dispatch_words (c : command_name) (w : string) (ws : list string) :
  Forall (fun w => is_word w = true) (w :: ws) ->
  dispatch (command_line c (w :: ws)) =
  let x := join " " (map lower (w :: ws)) in
  match c with
  | CHelp => Ok Help
  | CObsidianListAll => Ok ListFilesInVault
  | CObsidianListDir => Ok (ListFilesInDir x)
  | CObsidianGetContent => Ok (GetFileContents x)
  | CObsidianAppend => append_arguments ("/obsidian_append " ++ x)
  | CObsidianPatch => patch_arguments ("/obsidian_patch " ++ x)
  | CObsidianSearch => Ok (SearchObsidianVault x)
  | CObsidianDelete => Ok (DeleteObsidianFile x)
  | CDockerListImages => Ok ListDockerImages
  | CDockerListContainers => Ok ListDockerContainers
  | CDockerCreate => Ok (CreateDockerContainer x)
  end.
Proof.
  intros H. unfold dispatch, command_line.
  rewrite normalize_line
    by (trivial || apply keyword_is_word || apply keyword_no_upper).
  assert (S : strip (join " " (map lower (w :: ws)))
              = join " " (map lower (w :: ws))).
  { apply (strip_join_words (lower w) (map lower ws)).
    apply (Forall_word_lower _ H). }
  cbn [map] in *. rewrite join_cons.
  cbv zeta. set (x := join " " (lower w :: map lower ws)) in *. clearbody x.
  destruct c; cbn [keyword];
    match goal with
    | |- context [?k ++ " " ++ x] =>
        let p := eval cbn in (k ++ " ") in
        change (k ++ " " ++ x) with (p ++ x)
    end;
    rewrite ?remainder_prefix, ?S; reflexivity.
Qed.

Lemma append_arguments_words (w : string) (ws : list string) :
  Forall (fun w => is_word w = true) (w :: ws) ->
  append_arguments ("/obsidian_append " ++ join " " (w :: ws)) =
  match ws with
  | [] => Ok (Usage usage_append)
  | _ :: _ => Ok (AppendContent w (join " " ws))
  end.
Proof.
  intros H. unfold append_arguments.
  rewrite remainder_prefix, (strip_join_words _ _ H). cbn [bind].
  rewrite (split_join_words 1 _ _ H).
  destruct ws; reflexivity.
Qed.

Lemma patch_arguments_words (w : string) (ws : list string) :
  Forall (fun w => is_word w = true) (w :: ws) ->
  patch_arguments ("/obsidian_patch " ++ join " " (w :: ws)) =
  match ws with
  | t :: g :: (_ :: _) as rest => Ok (PatchContent w t g (join " " rest))
  | _ => Ok (Usage usage_patch)
  end.
Proof.
  intros H. unfold patch_arguments.
  rewrite remainder_prefix, (strip_join_words _ _ H). cbn [bind].
  rewrite (split_join_words 3 _ _ H).
  destruct ws as [|t [|g [|x rest]]]; reflexivity.
Qed.

(** C3 as the code has it.  On a line made of a command keyword and words
    separated by single spaces:
    - with at least as many words as the command documents, the parser
      calls the adapter with exactly the documented number of arguments,
      the last one taking the rest of the line;
    - for [/obsidian_append] and [/obsidian_patch], with at least one word
      but fewer than documented, the result is the usage text of the
      command;
    - with no word at all, a command that takes arguments gives the
      unrecognized-command result.
    In no case does an [IndexError] leave the parser. *)
Theorem C3_argument_extraction (c : command_name) (words : list string) :
  Forall (fun w => is_word w = true) words ->
  (documented_args c <= List.length words ->
   exists a, call_of c (positional (documented_args c) (map lower words)) = Some a
             /\ dispatch (command_line c words) = Ok a)
  /\ (1 <= List.length words < documented_args c ->
      exists u, usage_of c = Some u
                /\ dispatch (command_line c words) = Ok (Usage u))
  /\ (words = [] -> 1 <= documented_args c ->
      dispatch (command_line c words) = Ok Unrecognized).
Proof.
  intros H. destruct words as [|w ws].
  - split; [|split].
    + intros L. destruct c; cbn in L; try lia; eexists; split; reflexivity.
    + cbn; lia.
    + intros _ L. destruct c; cbn in L; try lia; reflexivity.
  - pose proof (Forall_word_lower _ H) as HL. cbn [map] in HL.
    rewrite (dispatch_words c w ws H). cbv zeta. cbn [map].
    split; [|split]; [| |discriminate].
    + intros L.
      destruct c; cbn [documented_args positional firstn skipn app] in *;
        try (eexists; split; reflexivity).
      * rewrite (append_arguments_words _ _ HL).
        destruct ws as [|w2 ws]; cbn in L; [lia|].
        eexists; split; reflexivity.
      * rewrite (patch_arguments_words _ _ HL).
        destruct ws as [|w2 [|w3 [|w4 ws]]]; cbn in L; try lia.
        eexists; split; reflexivity.
    + intros L.
      destruct c; cbn [documented_args List.length] in L; try lia.
      * rewrite (append_arguments_words _ _ HL).
        destruct ws as [|w2 ws]; cbn in L; [|lia].
        eexists; split; reflexivity.
      * rewrite (patch_arguments_words _ _ HL).
        destruct ws as [|w2 [|w3 [|w4 ws]]]; cbn in L; try lia;
          eexists; split; reflexivity.
Qed.

Lemma C3_argument_extraction_witness :
  Forall (fun w => is_word w = true)
    [Samples.E_acute ++ "cole.md"; "heading"; "Tasks"]
  /\ 1 <= List.length [Samples.E_acute ++ "cole.md"; "heading"; "Tasks"]
       < documented_args CObsidianPatch
  /\ (exists u, usage_of CObsidianPatch = Some u
                /\ dispatch ("/obsidian_patch " ++ Samples.E_acute
                               ++ "cole.md heading Tasks") = Ok (Usage u))
  /\ documented_args CObsidianAppend
       <= List.length [Samples.E_acute ++ "cole.md"; "heading"; "Tasks"]
  /\ (exists a, call_of CObsidianAppend
                  [Samples.e_acute ++ "cole.md"; "heading tasks"] = Some a
                /\ dispatch ("/obsidian_append " ++ Samples.E_acute
                               ++ "cole.md heading Tasks") = Ok a).
Proof.
  assert (W : Forall (fun w => is_word w = true)
                [Samples.E_acute ++ "cole.md"; "heading"; "Tasks"])
    by (repeat constructor).
  assert (L : 1 <= List.length [Samples.E_acute ++ "cole.md"; "heading"; "Tasks"]
              < documented_args CObsidianPatch) by (cbn; lia).
  assert (G : documented_args CObsidianAppend
              <= List.length [Samples.E_acute ++ "cole.md"; "heading"; "Tasks"])
    by (cbn; lia).
  split; [exact W|]. split; [exact L|].
  split; [exact (proj1 (proj2 (C3_argument_extraction CObsidianPatch
                                 [Samples.E_acute ++ "cole.md"; "heading"; "Tasks"]
                                 W)) L)|].
  split; [exact G|].
  exact (proj1 (C3_argument_extraction CObsidianAppend
                  [Samples.E_acute ++ "cole.md"; "heading"; "Tasks"] W) G).
Defined.

(** C3 as stated fails: [/obsidian_list_dir] documents one argument, and
    the line with none gives the unrecognized-command result, for which
    the command has no usage text. *)
Lemma C3_counterexample :
  List.length (@nil string) + 1 = documented_args CObsidianListDir
  /\ dispatch (command_line CObsidianListDir []) = Ok Unrecognized
  /\ dispatch "/obsidian_list_dir " = Ok Unrecognized
  /\ usage_of CObsidianListDir = None.
Proof. repeat split. Qed.

(** *** The adapters and the conversation store *)

Ltac run_adapter :=
  cbv [run list_files_in_vault list_files_in_dir get_file_contents
       append_content patch_content search_obsidian_vault
       delete_obsidian_file list_docker_images list_docker_containers
       create_docker_container get_docker_client
       except_RequestException except_Exception
       try_except mbind ret raise modify lift perform show
       append_message set_rerun];
  cbn [messages rerun ui calls fst snd].

Ltac answer t :=
  let x := fresh "x" in
  destruct t as [?|x]; [|try destruct x];
  cbn [messages rerun ui calls fst snd get_list files results file_content].

(** Case analysis on every answer an adapter asks the environment for, and
    on what reading the body gives. *)
Ltac answers e :=
  repeat match goal with
  | |- context [vault e ?r] => answer (vault e r)
  | |- context [Json.dict_get ?v ?k ?d] => answer (Json.dict_get v k d)
  | |- context [if Json.truthy ?v then _ else _] => destruct (Json.truthy v)
  | |- context [Json.iterate ?v] => answer (Json.iterate v)
  | |- context [docker_from_env e] => answer (docker_from_env e)
  | |- context [images_list e] => answer (images_list e)
  | |- context [containers_list e] => answer (containers_list e)
  | |- context [images_get e ?i] => answer (images_get e i)
  | |- context [images_pull e ?i] => answer (images_pull e i)
  | |- context [containers_run e ?i] => answer (containers_run e i)
  | |- context [match ?v with [] => _ | _ :: _ => _ end] => destruct v
  end;
  cbn [messages rerun ui calls fst snd].

(** C8 as the code has it.  Every adapter other than
    [create_docker_container] leaves the conversation store and the rerun
    flag of the session as they were; [create_docker_container], once it
    has a client, appends its progress message to the store, and a second
    one when the image is not found locally, and sets the rerun flag.
    What an adapter returns depends on the configuration and on the
    answers of the services only, not on the session it is called in. *)
Theorem C8_adapter_frame (e : env) (a : action) (s : state) :
  (reads_only a = true ->
   messages (snd (run e a s)) = messages s
   /\ rerun (snd (run e a s)) = rerun s)
  /\ (forall s0, fst (run e a s) = fst (run e a s0))
  /\ (forall image_name, a = CreateDockerContainer image_name ->
      messages (snd (run e a s)) =
      messages s ++
      match docker_from_env e with
      | Raise _ => []
      | Ok _ =>
          msg Assistant ("Creating container from image `" ++ image_name ++ "`...")
          :: match images_get e image_name with
             | Raise (ImageNotFound _) =>
                 [msg Assistant ("Image `" ++ image_name
                    ++ "` not found locally. Pulling from Docker Hub...")]
             | _ => []
             end
      end)%list
  /\ (forall image_name, a = CreateDockerContainer image_name ->
      rerun (snd (run e a s)) =
      match docker_from_env e with
      | Raise _ => rerun s
      | Ok _ => true
      end).
Proof.
  split; [|split; [|split]].
  - intros R. destruct a; try discriminate R; run_adapter; answers e;
      split; reflexivity.
  - intros s0. destruct a; run_adapter; answers e; reflexivity.
  - intros image_name ->. run_adapter.
    answer (docker_from_env e); try (now rewrite app_nil_r).
    answer (images_get e image_name);
      try (answer (containers_run e image_name); reflexivity).
    answer (images_pull e image_name);
      try (answer (containers_run e image_name));
      rewrite <- app_assoc; reflexivity.
  - intros image_name ->. run_adapter. answers e; reflexivity.
Qed.

Lemma C8_adapter_frame_witness :
  reads_only (ListFilesInDir "notes") = true
  /\ messages (snd (run Samples.docker_env (ListFilesInDir "notes") initial_state))
     = messages initial_state
  /\ rerun (snd (run Samples.docker_env (CreateDockerContainer "alpine")
                   initial_state)) = true.
Proof.
  split; [reflexivity|]. split.
  - exact (proj1 (proj1 (C8_adapter_frame Samples.docker_env
                           (ListFilesInDir "notes") initial_state) eq_refl)).
  - exact (proj2 (proj2 (proj2 (C8_adapter_frame Samples.docker_env
                                  (CreateDockerContainer "alpine") initial_state)))
             "alpine" eq_refl).
Defined.

(** C8 as stated fails: [create_docker_container] writes to the
    conversation store. *)
Lemma C8_counterexample :
  messages (snd (create_docker_container Samples.docker_env "alpine" initial_state))
  = [ msg Assistant "Creating container from image `alpine`...";
      msg Assistant "Image `alpine` not found locally. Pulling from Docker Hub..." ]
  /\ messages (snd (create_docker_container Samples.docker_env "alpine" initial_state))
     <> messages initial_state
  /\ rerun (snd (create_docker_container Samples.docker_env "alpine" initial_state))
     <> rerun initial_state.
Proof. repeat split; discriminate. Qed.

End CommandChatFacts.

(** ** The tool-calling turn *)

Module ToolChatFacts.
Import Py Conversation ToolChat.
Local Open Scope list_scope.

(** An adapter call only adds to the trace of vault requests, and its
    answer does not depend on the session. *)
Lemma invoke_frame (e : env) (a : adapter) (fn_args : json) (s : state) :
  exists sent,
    invoke e a fn_args s =
    (fst (invoke e a fn_args initial_state),
     State (messages s) (ui s) (requests s) (vault_calls s ++ sent)).
Proof.
  unfold invoke.
  destruct fn_args; try (exists []; cbn; rewrite app_nil_r; now destruct s).
  destruct (unexpected_keyword (parameters a) d);
    [exists []; cbn; rewrite app_nil_r; now destruct s|].
  destruct a; [| destruct (lookup "filename" d) |];
    try (eexists [_]; reflexivity).
  exists []; cbn; rewrite app_nil_r; now destruct s.
Qed.

(** What one turn leaves in the session: the four shapes of the store and
    of the request trace. *)
Lemma turn_cases (e : env) (prompt : string) (s : state) :
  let u := msg User prompt in
  let p1 := payload (messages s ++ [u]) in
  let s' := snd (turn e prompt s) in
  (messages s' = messages s ++ [u] /\ requests s' = requests s ++ [p1])
  \/ (exists c,
        messages s' = messages s ++ [u; msg Assistant c]
        /\ requests s' = requests s ++ [p1])
  \/ (exists fn r x,
        let t := Message Tool r (Some fn) in
        let p2 := followup_payload (messages s ++ [u; t]) in
        messages s' = messages s ++ [u; t]
        /\ requests s' = requests s ++ [p1; p2]
        /\ (fu <- chat e p2 ;; content_of fu) = Raise x
        /\ fst (turn e prompt s) = Ok tt
        /\ In ("Tool call `" ++ fn ++ "` failed: " ++ str_exn x)%string
              (errors (ui s'))
        /\ exists data tc,
             chat e p1 = Ok data /\ select_tool_call data = Some tc
             /\ fn_name (function tc) = fn)
  \/ (exists fn r c,
        let t := Message Tool r (Some fn) in
        let p2 := followup_payload (messages s ++ [u; t]) in
        messages s' = messages s ++ [u; t; msg Assistant c]
        /\ requests s' = requests s ++ [p1; p2]
        /\ (fu <- chat e p2 ;; content_of fu) = Ok c
        /\ fst (turn e prompt s) = Ok tt
        /\ errors (ui s') = errors (ui s)
        /\ exists data tc,
             chat e p1 = Ok data /\ select_tool_call data = Some tc
             /\ fn_name (function tc) = fn).
Proof.
  cbv zeta.
  cbv [turn mbind append_message show get_messages post_chat modify lift].
  cbn [messages ui requests vault_calls].
  destruct (chat e (payload (messages s ++ [msg User prompt]))) as [data|x] eqn:F1;
    [|left; split; reflexivity].
  destruct (select_tool_call data) as [tc|] eqn:Sel.
  - cbv [handle_tool_call mbind lift show modify try_except append_message
         get_messages post_chat].
    destruct (decode_arguments e tc) as [fn_args|x];
      [|left; split; reflexivity].
    cbn [messages ui requests vault_calls].
    destruct (lookup (fn_name (function tc)) FUNCTION_MAP) as [a|];
      [|left; split; reflexivity].
    match goal with
    | |- context [invoke e a fn_args ?st] =>
        destruct (invoke_frame e a fn_args st) as [sent E]; rewrite E; clear E
    end.
    cbn [messages ui requests vault_calls].
    destruct (fst (invoke e a fn_args initial_state)) as [result|x];
      [|left; split; reflexivity].
    cbn [messages ui requests vault_calls].
    rewrite <- !app_assoc. cbn [app].
    assert (T : exists data0 tc0,
               Ok data = Ok data0 /\ select_tool_call data0 = Some tc0
               /\ fn_name (function tc0) = fn_name (function tc))
      by (now exists data, tc).
    destruct (chat e (followup_payload _)) as [fu|x] eqn:F.
    + destruct (content_of fu) as [c|x] eqn:C.
      * right; right; right.
        exists (fn_name (function tc)), (json_dumps e result), c.
        cbn [snd fst messages ui requests]. rewrite <- !app_assoc, F.
        cbn [bind app]. repeat split; try assumption.
        unfold errors. rewrite !flat_map_app. cbn. now rewrite !app_nil_r.
      * right; right; left.
        exists (fn_name (function tc)), (json_dumps e result), x.
        cbn [snd fst messages ui requests]. rewrite F.
        cbn [bind]. repeat split; try assumption.
        unfold errors. rewrite !flat_map_app. cbn.
        apply in_or_app; right. now left.
    + right; right; left.
      exists (fn_name (function tc)), (json_dumps e result), x.
      cbn [snd fst messages ui requests]. rewrite F.
      cbn [bind]. repeat split; try assumption.
      unfold errors. rewrite !flat_map_app. cbn.
      apply in_or_app; right. now left.
  - destruct (content_of data) as [c|x] eqn:C.
    + right; left. exists c. cbn [snd messages requests].
      rewrite <- !app_assoc. split; reflexivity.
    + left; split; reflexivity.
Qed.

(** *** Where tool messages sit in the store *)

Lemma tool_after_app (r : role) (l l' : list message) : forall prev,
  tool_after r prev (l ++ l') =
  tool_after r prev l
  && tool_after r (fold_left (fun _ m => Some (role_of m)) l prev) l'.
Proof.
  induction l as [|m l IH]; intros prev; cbn [app tool_after fold_left].
  - reflexivity.
  - now rewrite IH, andb_assoc.
Qed.

Lemma tool_before_reply_app (l l' : list message) (n : message) :
  role_eqb (role_of n) Assistant || role_eqb (role_of n) User = true ->
  tool_before_reply (l ++ n :: l') =
  tool_before_reply l && tool_before_reply (n :: l').
Proof.
  intros Hn. induction l as [|m l IH]; [reflexivity|].
  cbn [app]. cbn [tool_before_reply] in *. rewrite IH.
  destruct l as [|m' l]; cbn [app].
  - rewrite Hn. now destruct (role_eqb (role_of m) Tool).
  - now rewrite andb_assoc.
Qed.

(** The two placement facts survive a turn. *)
Lemma turn_keeps_placement (e : env) (prompt : string) (s : state) :
  tool_after User None (messages s) = true ->
  tool_before_reply (messages s) = true ->
  tool_after User None (messages (snd (turn e prompt s))) = true
  /\ tool_before_reply (messages (snd (turn e prompt s))) = true.
Proof.
  intros A B.
  destruct (turn_cases e prompt s)
    as [[-> _] | [(c & -> & _) | [(fn & r & x & -> & _) | (fn & r & c & -> & _)]]];
    rewrite tool_after_app, tool_before_reply_app, A, B by reflexivity;
    split; reflexivity.
Qed.

Lemma reachable_placement (s : state) :
  reachable s ->
  tool_after User None (messages s) = true
  /\ tool_before_reply (messages s) = true.
Proof.
  induction 1 as [|e input s R [A B]].
  - split; reflexivity.
  - unfold script, mbind, replay.
    destruct input as [[|c prompt]|]; try (split; assumption).
    now apply turn_keeps_placement.
Qed.

(** C2 as the code has it.  The turn never stores the assistant message
    that asked for the tool.  In every store a session can reach, each
    tool message comes right after a user message (the prompt of its
    turn) and is the last message or comes right before an assistant or a
    user message; and in a turn whose second request is answered with
    content, the store gains the prompt, the tool message and, right
    after it, the assistant message with that content.  A turn stores a
    tool message only when its first response asked for a tool, and under
    the name of that tool. *)
Theorem C2_tool_message_placement (s : state) :
  reachable s ->
  tool_after User None (messages s) = true
  /\ tool_before_reply (messages s) = true
  /\ (forall e prompt p1 p2 followup c,
        requests (snd (turn e prompt s)) = requests s ++ [p1; p2] ->
        chat e p2 = Ok followup -> content_of followup = Ok c ->
        exists fn r,
          messages (snd (turn e prompt s)) =
          messages s ++ [msg User prompt; Message Tool r (Some fn); msg Assistant c])
  /\ (forall e prompt m tail,
        messages (snd (turn e prompt s)) = messages s ++ msg User prompt :: m :: tail ->
        role_of m = Tool ->
        exists data tc,
          chat e (payload (messages s ++ [msg User prompt])) = Ok data
          /\ select_tool_call data = Some tc
          /\ name m = Some (fn_name (function tc))).
Proof.
  intros R. destruct (reachable_placement s R) as [A B].
  split; [exact A|]. split; [exact B|]. split.
  - intros e prompt p1 p2 followup c Q F C.
    destruct (turn_cases e prompt s)
      as [[_ Q'] | [(c' & _ & Q') | [(fn & r & x & M & Q' & K & _)
                                    | (fn & r & c' & M & Q' & K & _)]]];
      rewrite Q' in Q; apply app_inv_head in Q; try discriminate Q;
      injection Q as <- <-; rewrite F in K; cbn [bind] in K; rewrite C in K;
      try discriminate K.
    injection K as <-. now exists fn, r.
  - intros e prompt m tail Q Hm.
    destruct (turn_cases e prompt s)
      as [[M _] | [(c' & M & _)
                  | [(fn & r & x & M & _ & _ & _ & _ & data & tc & F & Sel & <-)
                    | (fn & r & c' & M & _ & _ & _ & _ & data & tc & F & Sel & <-)]]];
      rewrite M in Q; apply app_inv_head in Q; try discriminate Q.
    + injection Q as <- _. discriminate Hm.
    + injection Q as <- _. now exists data, tc.
    + injection Q as <- _. now exists data, tc.
Qed.

Lemma C2_tool_message_placement_witness :
  reachable (snd (script Samples.env_followup_down (Some Samples.question) initial_state))
  /\ tool_after User None
       (messages (snd (script Samples.env_followup_down (Some Samples.question)
                         initial_state))) = true
  /\ tool_before_reply
       (messages (snd (script Samples.env_followup_down (Some Samples.question)
                         initial_state))) = true
  /\ exists fn r,
       messages (snd (turn Samples.env_round_trip Samples.question initial_state))
       = messages initial_state
         ++ [msg User Samples.question; Message Tool r (Some fn);
             msg Assistant "You have one note: a.md"].
Proof.
  assert (R : reachable (snd (script Samples.env_followup_down
                                (Some Samples.question) initial_state)))
    by (apply reach_run, reach_initial).
  split; [exact R|].
  split; [exact (proj1 (C2_tool_message_placement _ R))|].
  split; [exact (proj1 (proj2 (C2_tool_message_placement _ R)))|].
  apply (proj1 (proj2 (proj2 (C2_tool_message_placement initial_state
                                reach_initial)))
           Samples.env_round_trip Samples.question
           (payload (messages initial_state ++ [msg User Samples.question]))
           (followup_payload
              (messages initial_state
               ++ [msg User Samples.question;
                   Message Tool (Samples.sample_dumps Samples.vault_files)
                     (Some "list_files"%string)]))
           (Samples.says "You have one note: a.md"));
    reflexivity.
Defined.

(** C2 as stated fails: after one complete round trip the tool message
    stands right after the user message, with no assistant message before
    it. *)
Lemma C2_counterexample :
  reachable (snd (script Samples.env_round_trip (Some Samples.question) initial_state))
  /\ map role_of
       (messages (snd (script Samples.env_round_trip (Some Samples.question)
                         initial_state)))
     = [System; User; Tool; Assistant]
  /\ tool_after Assistant None
       (messages (snd (script Samples.env_round_trip (Some Samples.question)
                         initial_state))) = false.
Proof.
  split; [apply reach_run, reach_initial|]. split; reflexivity.
Qed.

(** *** Transport failures *)

(** C1 as the code has it.  When the first request fails, the store after
    the turn is the store before it plus the user message, and no second
    request is sent.  When the second request fails, the tool message
    appended before it stays: the store is the store before the turn plus
    the user message and the tool message, no assistant message is
    appended, and the error text [Tool call `fn` failed: ...] is shown. *)
Theorem C1_transport_failure (e : env) (prompt : string) (s : state) (x : exn) :
  (chat e (payload (messages s ++ [msg User prompt])) = Raise x ->
   messages (snd (turn e prompt s)) = messages s ++ [msg User prompt]
   /\ requests (snd (turn e prompt s))
      = requests s ++ [payload (messages s ++ [msg User prompt])])
  /\ (forall p1 p2,
        requests (snd (turn e prompt s)) = requests s ++ [p1; p2] ->
        chat e p2 = Raise x ->
        exists fn r,
          messages (snd (turn e prompt s))
          = messages s ++ [msg User prompt; Message Tool r (Some fn)]
          /\ fst (turn e prompt s) = Ok tt
          /\ In ("Tool call `" ++ fn ++ "` failed: " ++ str_exn x)%string
                (errors (ui (snd (turn e prompt s))))).
Proof.
  split.
  - intros F.
    cbv [turn mbind append_message show get_messages post_chat modify lift].
    cbn [messages ui requests vault_calls]. rewrite F. split; reflexivity.
  - intros p1 p2 Q F.
    destruct (turn_cases e prompt s)
      as [[_ Q'] | [(c' & _ & Q') | [(fn & r & y & M & Q' & K & O & E)
                                    | (fn & r & c' & M & Q' & K & _)]]];
      rewrite Q' in Q; apply app_inv_head in Q; try discriminate Q;
      injection Q as <- <-; rewrite F in K; cbn [bind] in K;
      try discriminate K.
    injection K as <-. now exists fn, r.
Qed.

Lemma C1_transport_failure_witness :
  (chat Samples.env_first_down
     (payload (messages initial_state ++ [msg User Samples.question]))
   = Raise Samples.server_error
   /\ messages (snd (turn Samples.env_first_down Samples.question initial_state))
      = messages initial_state ++ [msg User Samples.question])
  /\ (chat Samples.env_followup_down
        (followup_payload
           (messages initial_state
            ++ [msg User Samples.question;
                Message Tool (Samples.sample_dumps Samples.vault_files)
                  (Some "list_files"%string)]))
      = Raise Samples.server_error
      /\ exists fn r,
           messages (snd (turn Samples.env_followup_down Samples.question
                            initial_state))
           = messages initial_state
             ++ [msg User Samples.question; Message Tool r (Some fn)]
           /\ fst (turn Samples.env_followup_down Samples.question initial_state)
              = Ok tt
           /\ In ("Tool call `" ++ fn ++ "` failed: "
                  ++ str_exn Samples.server_error)%string
                 (errors (ui (snd (turn Samples.env_followup_down Samples.question
                                     initial_state))))).
Proof.
  split; (split; [reflexivity|]).
  - exact (proj1 (proj1 (C1_transport_failure Samples.env_first_down
                           Samples.question initial_state Samples.server_error)
                    eq_refl)).
  - apply (proj2 (C1_transport_failure Samples.env_followup_down Samples.question
                    initial_state Samples.server_error)
             (payload (messages initial_state ++ [msg User Samples.question]))
             (followup_payload
                (messages initial_state
                 ++ [msg User Samples.question;
                     Message Tool (Samples.sample_dumps Samples.vault_files)
                       (Some "list_files"%string)])));
      reflexivity.
Defined.

(** C1 as stated fails: the second request fails, and the store holds the
    tool message of the turn besides the user message. *)
Lemma C1_counterexample :
  chat Samples.env_followup_down
    (followup_payload
       (messages initial_state
        ++ [msg User Samples.question;
            Message Tool (Samples.sample_dumps Samples.vault_files)
              (Some "list_files"%string)]))
  = Raise Samples.server_error
  /\ requests (snd (turn Samples.env_followup_down Samples.question initial_state))
     = [payload (messages initial_state ++ [msg User Samples.question]);
        followup_payload
          (messages initial_state
           ++ [msg User Samples.question;
               Message Tool (Samples.sample_dumps Samples.vault_files)
                 (Some "list_files"%string)])]
  /\ messages (snd (turn Samples.env_followup_down Samples.question initial_state))
     = messages initial_state
       ++ [msg User Samples.question;
           Message Tool (Samples.sample_dumps Samples.vault_files)
             (Some "list_files"%string)]
  /\ messages (snd (turn Samples.env_followup_down Samples.question initial_state))
     <> messages initial_state ++ [msg User Samples.question].
Proof.
  repeat split. discriminate.
Qed.

(** *** The two paths of a turn *)

Lemma select_first (data : response) (m : chat_message) (tc : tool_call)
    (rest : list tool_call) :
  resp_message data = Some m -> tool_calls m = Some (tc :: rest) ->
  select_tool_call data = Some tc.
Proof. unfold select_tool_call. now intros -> ->. Qed.

Lemma select_none (data : response) (m : chat_message) :
  resp_message data = Some m -> tool_calls m = None -> tool m = None ->
  select_tool_call data = None.
Proof. unfold select_tool_call. now intros -> -> ->. Qed.

Lemma invoke_answer (e : env) (a : adapter) (fn_args : json) (s s0 : state) :
  fst (invoke e a fn_args s) = fst (invoke e a fn_args s0).
Proof.
  destruct (invoke_frame e a fn_args s) as [c ->].
  destruct (invoke_frame e a fn_args s0) as [c0 ->]. reflexivity.
Qed.

(** A decoding failure leaves the branch as the exception it is: nothing
    is shown and nothing is stored. *)
Lemma decode_failure_propagates (e : env) (tc : tool_call) (s : state) (x : exn) :
  decode_arguments e tc = Raise x -> handle_tool_call e tc s = (Raise x, s).
Proof.
  intros D. cbv [handle_tool_call mbind lift]. now rewrite D.
Qed.

(** C4 as the code has it.  When the first response carries a tool-call
    list with a first entry, the tool of that entry is in the registry, its
    arguments decode, the adapter call succeeds and the second request is
    answered with content, the turn appends one tool message and, right
    after it, one assistant message, and sends two requests, the second
    without tool definitions. *)
Theorem C4_tool_round_trip (e : env) (prompt : string) (s : state)
    (data : response) (m : chat_message) (tc : tool_call) (rest : list tool_call)
    (a : adapter) (fn_args result : json) (followup : response) (c : string) :
  let u := msg User prompt in
  let t := Message Tool (json_dumps e result) (Some (fn_name (function tc))) in
  chat e (payload (messages s ++ [u])) = Ok data ->
  resp_message data = Some m ->
  tool_calls m = Some (tc :: rest) ->
  decode_arguments e tc = Ok fn_args ->
  lookup (fn_name (function tc)) FUNCTION_MAP = Some a ->
  fst (invoke e a fn_args s) = Ok result ->
  chat e (followup_payload (messages s ++ [u; t])) = Ok followup ->
  content_of followup = Ok c ->
  fst (turn e prompt s) = Ok tt
  /\ messages (snd (turn e prompt s)) = messages s ++ [u; t; msg Assistant c]
  /\ requests (snd (turn e prompt s))
     = requests s ++ [payload (messages s ++ [u]);
                      followup_payload (messages s ++ [u; t])]
  /\ tools (followup_payload (messages s ++ [u; t])) = None.
Proof.
  intros u t F M T D L I F2 C. subst u t.
  cbv [turn mbind append_message show get_messages post_chat modify lift].
  cbn [messages ui requests vault_calls].
  rewrite F, (select_first _ _ _ _ M T).
  cbv [handle_tool_call mbind lift show modify try_except append_message
       get_messages post_chat].
  rewrite D. cbn [messages ui requests vault_calls]. rewrite L.
  match goal with
  | |- context [invoke e a fn_args ?st] =>
      destruct (invoke_frame e a fn_args st) as [sent E]; rewrite E; clear E
  end.
  rewrite <- (invoke_answer e a fn_args s), I.
  cbn [messages ui requests vault_calls].
  rewrite <- !app_assoc. cbn [app]. rewrite F2, C.
  cbn [fst snd messages requests]. rewrite <- !app_assoc.
  repeat split.
Qed.

Lemma C4_tool_round_trip_witness :
  fst (turn Samples.env_round_trip Samples.question initial_state) = Ok tt
  /\ messages (snd (turn Samples.env_round_trip Samples.question initial_state))
     = messages initial_state
       ++ [msg User Samples.question;
           Message Tool (Samples.sample_dumps Samples.vault_files)
             (Some "list_files"%string);
           msg Assistant "You have one note: a.md"]
  /\ List.length (requests (snd (turn Samples.env_round_trip Samples.question
                                   initial_state))) = 2.
Proof.
  destruct (C4_tool_round_trip Samples.env_round_trip Samples.question initial_state
              (Samples.asks "list_files" (Some (JDict [])))
              (ChatMessage (Some ""%string)
                 (Some [ToolCall (FunctionCall "list_files" (Some (JDict [])))]) None)
              (ToolCall (FunctionCall "list_files" (Some (JDict [])))) []
              list_files (JDict []) Samples.vault_files
              (Samples.says "You have one note: a.md") "You have one note: a.md"
              eq_refl eq_refl eq_refl eq_refl eq_refl eq_refl eq_refl eq_refl)
    as (O & M & Q & _).
  split; [exact O|]. split; [exact M|]. rewrite Q. reflexivity.
Defined.

(** C4 as stated fails: the first response carries a tool-call list of
    length one whose tool the registry does not have; the turn appends
    neither a tool message nor an assistant message and sends one
    request. *)
Lemma C4_counterexample :
  chat Samples.env_unknown_tool
    (payload (messages initial_state ++ [msg User Samples.question]))
  = Ok (Samples.asks "delete_everything" (Some (JDict [])))
  /\ option_map (@List.length tool_call)
       (tool_calls (ChatMessage (Some ""%string)
          (Some [ToolCall (FunctionCall "delete_everything" (Some (JDict [])))])
          None)) = Some 1
  /\ messages (snd (turn Samples.env_unknown_tool Samples.question initial_state))
     = messages initial_state ++ [msg User Samples.question]
  /\ List.length (requests (snd (turn Samples.env_unknown_tool Samples.question
                                   initial_state))) = 1
  /\ errors (ui (snd (turn Samples.env_unknown_tool Samples.question initial_state)))
     = ["Unknown tool requested: delete_everything"%string].
Proof. repeat split. Qed.

(** C7 as the code has it.  When the message of the first response carries
    neither a tool-call list nor the singular [tool] entry, and has
    content, the turn appends that content as one assistant message and
    sends no second request. *)
Theorem C7_direct_reply (e : env) (prompt : string) (s : state)
    (data : response) (m : chat_message) (c : string) :
  chat e (payload (messages s ++ [msg User prompt])) = Ok data ->
  resp_message data = Some m ->
  tool_calls m = None ->
  tool m = None ->
  msg_content m = Some c ->
  fst (turn e prompt s) = Ok tt
  /\ messages (snd (turn e prompt s))
     = messages s ++ [msg User prompt; msg Assistant c]
  /\ requests (snd (turn e prompt s))
     = requests s ++ [payload (messages s ++ [msg User prompt])].
Proof.
  intros F M T1 T2 C.
  cbv [turn mbind append_message show get_messages post_chat modify lift].
  cbn [messages ui requests vault_calls].
  rewrite F, (select_none _ _ M T1 T2).
  unfold content_of. rewrite M. cbn [getkey bind]. rewrite C.
  cbn [getkey fst snd messages requests]. rewrite <- !app_assoc.
  repeat split.
Qed.

Lemma C7_direct_reply_witness :
  fst (turn Samples.env_direct Samples.question initial_state) = Ok tt
  /\ messages (snd (turn Samples.env_direct Samples.question initial_state))
     = messages initial_state ++ [msg User Samples.question; msg Assistant "Hello!"]
  /\ requests (snd (turn Samples.env_direct Samples.question initial_state))
     = requests initial_state
       ++ [payload (messages initial_state ++ [msg User Samples.question])].
Proof.
  exact (C7_direct_reply Samples.env_direct Samples.question initial_state
           (Samples.says "Hello!") (ChatMessage (Some "Hello!"%string) None None)
           "Hello!" eq_refl eq_refl eq_refl eq_refl eq_refl).
Defined.

(** C7 as stated fails: the message of the first response carries no
    tool-call list but the singular [tool] entry; the turn runs the tool,
    appends a tool message and sends a second request. *)
Lemma C7_counterexample :
  chat Samples.env_singular
    (payload (messages initial_state ++ [msg User Samples.question]))
  = Ok (Samples.asks_singular "list_files" (Some (JDict [])))
  /\ tool_calls (ChatMessage (Some ""%string) None
                   (Some (ToolCall (FunctionCall "list_files" (Some (JDict []))))))
     = None
  /\ map role_of
       (messages (snd (turn Samples.env_singular Samples.question initial_state)))
     = [System; User; Tool; Assistant]
  /\ List.length (requests (snd (turn Samples.env_singular Samples.question
                                   initial_state))) = 2.
Proof. repeat split. Qed.

(** *** Argument decoding *)

(** C5 at the failing input: the argument text does not decode, and the
    [JSONDecodeError] leaves the turn as a raised exception; the script
    shows no error text of its own, sends no further request and stores
    only the user message. *)
Theorem C5_decode_failure_escapes :
  decode_arguments Samples.env_bad_arguments
    (ToolCall (FunctionCall "list_files" (Some (JStr "{bad"))))
  = Raise (JSONDecodeError "Expecting property name enclosed in double quotes")
  /\ fst (turn Samples.env_bad_arguments Samples.question initial_state)
     = Raise (JSONDecodeError "Expecting property name enclosed in double quotes")
  /\ errors (ui (snd (turn Samples.env_bad_arguments Samples.question initial_state)))
     = []
  /\ messages (snd (turn Samples.env_bad_arguments Samples.question initial_state))
     = messages initial_state ++ [msg User Samples.question]
  /\ List.length (requests (snd (turn Samples.env_bad_arguments Samples.question
                                   initial_state))) = 1.
Proof. repeat split. Qed.

(** C6.  For every tool name and every argument mapping [d], a tool call
    whose arguments arrive as a text that decodes to [d] is handled as the
    same call with the arguments already structured as [d]: the decoded
    arguments are [d] in both cases, and the adapter request sent to the
    vault, the messages stored and everything shown are the same. *)
Theorem C6_text_arguments (e : env) (fn text : string)
    (d : list (string * json)) (s : state) :
  json_loads e text = Ok (JDict d) ->
  decode_arguments e (ToolCall (FunctionCall fn (Some (JStr text)))) = Ok (JDict d)
  /\ decode_arguments e (ToolCall (FunctionCall fn (Some (JDict d)))) = Ok (JDict d)
  /\ handle_tool_call e (ToolCall (FunctionCall fn (Some (JStr text)))) s
     = handle_tool_call e (ToolCall (FunctionCall fn (Some (JDict d)))) s.
Proof.
  intros D.
  assert (E : decode_arguments e (ToolCall (FunctionCall fn (Some (JStr text))))
              = Ok (JDict d)) by exact D.
  split; [exact E|]. split; [reflexivity|].
  cbv [handle_tool_call mbind lift]. rewrite E. reflexivity.
Qed.

Lemma C6_text_arguments_witness :
  json_loads Samples.env_round_trip Samples.filename_text
  = Ok (JDict Samples.filename_args)
  /\ vault_calls
       (snd (handle_tool_call Samples.env_round_trip
               (ToolCall (FunctionCall "summarize_file"
                            (Some (JStr Samples.filename_text))))
               initial_state))
     = [Post "https://127.0.0.1:27124/summarize" "Bearer secret"
          (Some (JDict [("filename"%string, JStr "a.md")]))].
Proof.
  split; [reflexivity|].
  rewrite (proj2 (proj2 (C6_text_arguments Samples.env_round_trip "summarize_file"
                           Samples.filename_text Samples.filename_args
                           initial_state eq_refl))).
  reflexivity.
Defined.

End ToolChatFacts.

(** ** More on the command parser *)

Module ParserFacts.
Import Py PyStr PyStrFacts Conversation CommandChat CommandChatFacts.

(** *** Stripping and lower-casing *)

Lemma lstrip_lower (s : string) : lstrip (lower s) = lower (lstrip s).
Proof.
  induction s as [|c s IH]; simpl; [reflexivity|].
  rewrite isspace_lower_char. now destruct (isspace c).
Qed.

Lemma rstrip_lower (s : string) : rstrip (lower s) = lower (rstrip s).
Proof.
  induction s as [|c s IH]; simpl; [reflexivity|].
  rewrite IH, isspace_lower_char.
  destruct (rstrip s); simpl; [now destruct (isspace c) | reflexivity].
Qed.

Lemma strip_lower (s : string) : strip (lower s) = lower (strip s).
Proof. unfold strip. now rewrite lstrip_lower, rstrip_lower. Qed.

Lemma lower_lower (s : string) : lower (lower s) = lower s.
Proof. apply lower_no_upper, no_upper_lower. Qed.

Lemma rstrip_rstrip (s : string) : rstrip (rstrip s) = rstrip s.
Proof.
  induction s as [|c s IH]; simpl; [reflexivity|].
  destruct (rstrip s) as [|d r] eqn:E.
  - destruct (isspace c) eqn:Hc; simpl; [reflexivity | now rewrite Hc].
  - change (rstrip (String c (String d r))) with
      (match rstrip (String d r) with
       | EmptyString => if isspace c then EmptyString else String c EmptyString
       | r0 => String c r0
       end).
    now rewrite IH.
Qed.

(** What [lstrip] leaves is empty or begins with a character that is no
    white space. *)
Lemma lstrip_head (s : string) :
  lstrip s = "" \/ exists c t, lstrip s = String c t /\ isspace c = false.
Proof.
  induction s as [|c s IH]; simpl; [now left|].
  destruct (isspace c) eqn:Hc; [exact IH|]. right. now exists c, s.
Qed.

Lemma rstrip_head (c : ascii) (t : string) :
  isspace c = false -> exists r, rstrip (String c t) = String c r.
Proof.
  intros Hc. simpl. destruct (rstrip t) as [|d r]; rewrite ?Hc; eauto.
Qed.

Lemma lstrip_strip (s : string) : lstrip (strip s) = strip s.
Proof.
  unfold strip. destruct (lstrip_head s) as [-> | (c & t & -> & Hc)];
    [reflexivity|].
  destruct (rstrip_head c t Hc) as [r ->]. simpl. now rewrite Hc.
Qed.

Lemma strip_strip (s : string) : strip (strip s) = strip s.
Proof.
  unfold strip at 1. rewrite lstrip_strip. unfold strip. apply rstrip_rstrip.
Qed.

Lemma normalize_idempotent (prompt : string) :
  normalize (normalize prompt) = normalize prompt.
Proof.
  unfold normalize. now rewrite strip_lower, strip_strip, lower_lower.
Qed.

Lemma rstrip_normalize (prompt : string) :
  rstrip (normalize prompt) = normalize prompt.
Proof.
  unfold normalize, strip. now rewrite rstrip_lower, rstrip_rstrip.
Qed.

(** X2.  The dispatch looks at the stripped, lower-cased input only:
    typing a command in another case, or with white space around it,
    changes nothing. *)
Theorem X2_dispatch_ignores_case_and_margin (prompt : string) :
  dispatch (lower prompt) = dispatch prompt
  /\ dispatch (strip prompt) = dispatch prompt
  /\ dispatch (normalize prompt) = dispatch prompt.
Proof.
  assert (L : normalize (lower prompt) = normalize prompt)
    by (unfold normalize; now rewrite strip_lower, lower_lower).
  assert (S : normalize (strip prompt) = normalize prompt)
    by (unfold normalize; now rewrite strip_strip).
  unfold dispatch. now rewrite L, S, normalize_idempotent.
Qed.

(** *** The unguarded index *)

Lemma startswith_split (p : string) : forall s,
  startswith p s = true -> s = p ++ drop (String.length p) s.
Proof.
  induction p as [|a p IH]; intros [|b s]; cbn [startswith]; try discriminate;
    try reflexivity.
  destruct (Ascii.eqb_spec a b); [|discriminate].
  intros H. subst b. cbn [append String.length drop]. f_equal. now apply IH.
Qed.

Lemma remainder_startswith (p s : string) :
  startswith p s = true ->
  remainder p s = Ok (strip (drop (String.length p) s)).
Proof.
  intros H. rewrite (startswith_split p s H) at 1. apply remainder_prefix.
Qed.

Lemma append_arguments_total (command : string) :
  exists a, append_arguments command = Ok a.
Proof.
  unfold append_arguments, remainder, getitem.
  destruct (nth_error (split "/obsidian_append " 1 command) 1); cbn [bind];
    [|eexists; reflexivity].
  destruct (nth_error _ 0); cbn [bind]; [|eexists; reflexivity].
  destruct (nth_error _ 1); cbn [bind]; eexists; reflexivity.
Qed.

Lemma patch_arguments_total (command : string) :
  exists a, patch_arguments command = Ok a.
Proof.
  unfold patch_arguments, remainder, getitem.
  destruct (nth_error (split "/obsidian_patch " 1 command) 1); cbn [bind];
    [|eexists; reflexivity].
  destruct (nth_error _ 0); cbn [bind]; [|eexists; reflexivity].
  destruct (nth_error _ 1); cbn [bind]; [|eexists; reflexivity].
  destruct (nth_error _ 2); cbn [bind]; [|eexists; reflexivity].
  destruct (nth_error _ 3); cbn [bind]; eexists; reflexivity.
Qed.

Lemma dispatch_total (prompt : string) : exists a, dispatch prompt = Ok a.
Proof.
  unfold dispatch.
  repeat match goal with
  | |- exists a, (if startswith ?p ?c then _ else _) = _ =>
      let H := fresh "H" in
      destruct (startswith p c) eqn:H;
      [ try (eexists; reflexivity);
        try apply append_arguments_total;
        try apply patch_arguments_total;
        try (rewrite (remainder_startswith _ _ H); eexists; reflexivity) | ]
  end.
  eexists; reflexivity.
Qed.

(** X1.  The parser never raises: the index [[1]] of the branches without
    an [IndexError] handler is guarded by their [startswith] test, and the
    two branches that index further have the handler.  Every input gives an
    action. *)
Theorem X1_dispatch_never_raises (prompt : string) :
  exists a, dispatch prompt = Ok a.
Proof. apply dispatch_total. Qed.

(** *** Inputs that are no command *)

Lemma startswith_head (c : ascii) (p s : string) :
  startswith (String c "") s = false -> startswith (String c p) s = false.
Proof.
  destruct s as [|b s]; cbn [startswith]; [reflexivity|].
  now destruct (Ascii.eqb c b).
Qed.

(** X3.  An input whose stripped text does not begin with a slash matches
    no command and gets the unrecognized-command result. *)
Theorem X3_plain_text_unrecognized (prompt : string) :
  startswith "/" (normalize prompt) = false ->
  dispatch prompt = Ok Unrecognized.
Proof.
  intros H. unfold dispatch.
  now rewrite !(startswith_head _ _ _ H).
Qed.

Lemma X3_plain_text_unrecognized_witness :
  startswith "/" (normalize (Samples.nbsp ++ " List my notes, please ")) = false
  /\ dispatch (Samples.nbsp ++ " List my notes, please ") = Ok Unrecognized.
Proof.
  split; [reflexivity|].
  apply (X3_plain_text_unrecognized (Samples.nbsp ++ " List my notes, please ")).
  reflexivity.
Defined.

(** White space and capitals beyond ASCII count as well: a no-break space
    before [/help] does not hide the command, a query that is a no-break
    space is no query, and a capital E-acute is lower-cased. *)
Lemma beyond_ascii :
  dispatch (Samples.nbsp ++ "/help") = Ok Help
  /\ dispatch ("/obsidian_search " ++ Samples.nbsp) = Ok Unrecognized
  /\ dispatch ("/obsidian_search a " ++ Samples.nbsp)
     = Ok (SearchObsidianVault "a")
  /\ lower (Samples.E_acute ++ "COLE") = Samples.e_acute ++ "cole"
  /\ is_word Samples.nbsp = false.
Proof. repeat split. Qed.

(** *** Arguments are never empty *)

Lemma length_append (a b : string) :
  String.length (a ++ b) = String.length a + String.length b.
Proof. induction a; simpl; congruence. Qed.

Lemma rstrip_app_blank (a b : string) :
  rstrip b = "" -> rstrip (a ++ b) = rstrip a.
Proof.
  intros Hb. induction a as [|c a IH]; simpl; [exact Hb|]. now rewrite IH.
Qed.

Lemma rstrip_lstrip_blank (s : string) : rstrip (lstrip s) = "" -> rstrip s = "".
Proof.
  induction s as [|c s IH]; simpl; [trivial|].
  destruct (isspace c) eqn:Hc.
  - intros H. now rewrite (IH H).
  - simpl. destruct (rstrip s); rewrite ?Hc; discriminate.
Qed.

Lemma length_rstrip (s : string) : String.length (rstrip s) <= String.length s.
Proof.
  induction s as [|c s IH]; simpl; [lia|].
  destruct (rstrip s); [destruct (isspace c)|]; simpl in *; lia.
Qed.

(** After a prefix that ends in a space, a text with nothing to strip on
    the right has a remainder that does not strip to nothing. *)
Lemma remainder_not_empty (k r : string) :
  rstrip ((k ++ " ") ++ r) = (k ++ " ") ++ r -> strip r <> "".
Proof.
  intros F E. apply rstrip_lstrip_blank in E.
  rewrite (rstrip_app_blank _ _ E) in F.
  assert (B : rstrip (k ++ " ") = rstrip k)
    by (apply rstrip_app_blank; reflexivity).
  rewrite B in F. apply (f_equal String.length) in F.
  rewrite !length_append in F. pose proof (length_rstrip k). simpl in F. lia.
Qed.

Lemma single_argument (k command x : string) :
  rstrip command = command ->
  startswith (k ++ " ") command = true ->
  remainder (k ++ " ") command = Ok x ->
  x <> "" /\ strip x = x.
Proof.
  intros F H R. rewrite (remainder_startswith _ _ H) in R. injection R as <-.
  split; [|apply strip_strip].
  apply (remainder_not_empty k). now rewrite <- (startswith_split _ _ H).
Qed.

Lemma append_arguments_inv (command : string) (a : action) :
  append_arguments command = Ok a ->
  a = Usage usage_append
  \/ exists r f c,
       remainder "/obsidian_append " command = Ok r
       /\ find_sep " " r = Some (f, c)
       /\ a = AppendContent f c.
Proof.
  unfold append_arguments.
  destruct (remainder "/obsidian_append " command) as [r|x] eqn:R; cbn [bind].
  - cbn [split]. destruct (find_sep " " r) as [[f c]|] eqn:F1;
      cbn [getitem nth_error bind except_IndexError];
      intros E; injection E as <-; [right | left; reflexivity].
    now exists r, f, c.
  - destruct x; cbn [except_IndexError]; intros E; try discriminate E.
    injection E as <-. now left.
Qed.

Lemma patch_arguments_inv (command : string) (a : action) :
  patch_arguments command = Ok a ->
  a = Usage usage_patch
  \/ exists r f r1 t r2 g c,
       remainder "/obsidian_patch " command = Ok r
       /\ find_sep " " r = Some (f, r1)
       /\ find_sep " " r1 = Some (t, r2)
       /\ find_sep " " r2 = Some (g, c)
       /\ a = PatchContent f t g c.
Proof.
  unfold patch_arguments.
  destruct (remainder "/obsidian_patch " command) as [r|x] eqn:R; cbn [bind].
  - cbn [split].
    destruct (find_sep " " r) as [[f r1]|] eqn:F1;
      [|cbn [getitem nth_error bind except_IndexError];
        intros E; injection E as <-; now left].
    destruct (find_sep " " r1) as [[t r2]|] eqn:F2;
      [|cbn [getitem nth_error bind except_IndexError];
        intros E; injection E as <-; now left].
    destruct (find_sep " " r2) as [[g c]|] eqn:F3;
      cbn [getitem nth_error bind except_IndexError];
      intros E; injection E as <-; [right | left; reflexivity].
    now exists r, f, r1, t, r2, g, c.
  - destruct x; cbn [except_IndexError]; intros E; try discriminate E.
    injection E as <-. now left.
Qed.

(** X4.  A command with one argument never calls its adapter with an
    empty argument: when the dispatch gives an adapter call with a single
    argument, that argument is not empty and has no white space at either
    end. *)
Theorem X4_single_argument_not_empty (prompt : string) (a : action) (arg : string) :
  dispatch prompt = Ok a -> action_args a = [arg] ->
  arg <> "" /\ strip arg = arg.
Proof.
  unfold dispatch. pose proof (rstrip_normalize prompt) as F.
  set (command := normalize prompt) in *.
  repeat match goal with
  | |- (if startswith ?p command then _ else _) = _ -> _ =>
      let H := fresh "H" in destruct (startswith p command) eqn:H
  end;
  try (intros E; injection E as <-; discriminate);
  try match goal with
  | H : startswith ?p command = true
    |- (_ <- remainder ?p command ;; _) = _ -> _ =>
      destruct (remainder p command) as [x|x] eqn:R; cbn [bind];
      [|discriminate];
      intros E; injection E as <-; intros A; injection A as <-;
      match p with
      | String ?c ?t =>
          let k := eval cbn in (rstrip p) in
          change p with (k ++ " ") in H, R;
          exact (single_argument k command x F H R)
      end
  end.
  - intros E. apply append_arguments_inv in E as [-> | (r & f & c & _ & _ & ->)];
      discriminate.
  - intros E.
    apply patch_arguments_inv
      in E as [-> | (r & f & r1 & t & r2 & g & c & _ & _ & _ & _ & ->)];
      discriminate.
Qed.

Lemma X4_single_argument_not_empty_witness :
  dispatch ("/docker_create " ++ Samples.nbsp ++ " Alpine:3.19 " ++ Samples.nbsp)
  = Ok (CreateDockerContainer "alpine:3.19")
  /\ "alpine:3.19" <> "" /\ strip "alpine:3.19" = "alpine:3.19".
Proof.
  split; [reflexivity|].
  apply (X4_single_argument_not_empty
           ("/docker_create " ++ Samples.nbsp ++ " Alpine:3.19 " ++ Samples.nbsp)
           (CreateDockerContainer "alpine:3.19") "alpine:3.19");
    reflexivity.
Defined.

(** *** Only the last argument can hold a space *)

Lemma find_sep_before (s : string) : forall a b,
  find_sep " " s = Some (a, b) -> ~ In " "%char (chars a).
Proof.
  induction s as [|c s IH]; intros a b; cbn [find_sep].
  - cbn [startswith]. discriminate.
  - destruct (startswith " " (String c s)) eqn:H.
    + intros E; injection E as <- <-. intros [].
    + destruct (find_sep " " s) as [[a' b']|]; [|discriminate].
      intros E; injection E as <- <-. cbn [chars list_ascii_of_string In].
      intros [-> | I]; [discriminate H | exact (IH a' b' eq_refl I)].
Qed.

Lemma dispatch_append (prompt f c : string) :
  dispatch prompt = Ok (AppendContent f c) ->
  append_arguments (normalize prompt) = Ok (AppendContent f c).
Proof.
  unfold dispatch. set (command := normalize prompt).
  repeat match goal with
  | |- (if ?b then _ else _) = _ -> _ => destruct b
  end;
  try discriminate; try (intros E; exact E);
  try (destruct (remainder _ command); cbn [bind]; discriminate).
  intros E. apply patch_arguments_inv
    in E as [E | (r & f' & r1 & t & r2 & g & c' & _ & _ & _ & _ & E)];
    discriminate.
Qed.

Lemma dispatch_patch (prompt f t g c : string) :
  dispatch prompt = Ok (PatchContent f t g c) ->
  patch_arguments (normalize prompt) = Ok (PatchContent f t g c).
Proof.
  unfold dispatch. set (command := normalize prompt).
  repeat match goal with
  | |- (if ?b then _ else _) = _ -> _ => destruct b
  end;
  try discriminate; try (intros E; exact E);
  try (destruct (remainder _ command); cbn [bind]; discriminate).
  intros E. apply append_arguments_inv
    in E as [E | (r & f' & c' & _ & _ & E)];
    discriminate.
Qed.

(** X5.  Only the last argument of [/obsidian_append] and
    [/obsidian_patch] can hold a space: the file path, and for a patch the
    type and the target, are cut at the first space each. *)
Theorem X5_leading_arguments_without_space (prompt : string) :
  (forall f c, dispatch prompt = Ok (AppendContent f c) ->
     ~ In " "%char (chars f))
  /\ (forall f t g c, dispatch prompt = Ok (PatchContent f t g c) ->
        ~ In " "%char (chars f) /\ ~ In " "%char (chars t)
        /\ ~ In " "%char (chars g)).
Proof.
  split.
  - intros f c D. apply dispatch_append, append_arguments_inv in D.
    destruct D as [D | (r & f' & c' & _ & F & D)]; [discriminate|].
    injection D as -> ->. exact (find_sep_before _ _ _ F).
  - intros f t g c D. apply dispatch_patch, patch_arguments_inv in D.
    destruct D as [D | (r & f' & r1 & t' & r2 & g' & c' & _ & F1 & F2 & F3 & D)];
      [discriminate|].
    injection D as -> -> -> ->.
    repeat split; eapply find_sep_before; eauto.
Qed.

Lemma X5_leading_arguments_without_space_witness :
  dispatch "/obsidian_patch Notes.md heading Tasks buy milk"
  = Ok (PatchContent "notes.md" "heading" "tasks" "buy milk")
  /\ ~ In " "%char (chars "notes.md") /\ ~ In " "%char (chars "heading")
  /\ ~ In " "%char (chars "tasks").
Proof.
  split; [reflexivity|].
  exact (proj2 (X5_leading_arguments_without_space
                  "/obsidian_patch Notes.md heading Tasks buy milk")
           "notes.md" "heading" "tasks" "buy milk" eq_refl).
Defined.

(** *** The line is stripped and lower-cased before the dispatch *)










End ParserFacts.

(** ** More on the service adapters of the command chatbot *)

Module AdapterFacts.
Import Py PyStr PyStrFacts Conversation CommandChat CommandChatFacts.

Lemma string_app_assoc (a b c : string) : (a ++ b) ++ c = a ++ (b ++ c).
Proof. induction a; simpl; congruence. Qed.

Lemma concat_cons (x : string) (l : list string) :
  String.concat "" (x :: l) = x ++ String.concat "" l.
Proof. destruct l; cbn; [now rewrite append_empty | reflexivity]. Qed.

(** The loop that adds a bullet line per item. *)
Lemma bullets_concat (xs : list string) : forall acc,
  bullets acc xs = acc ++ String.concat "" (map bullet xs).
Proof.
  unfold bullets.
  induction xs as [|x xs IH]; intros acc; cbn [fold_left map].
  - cbn. now rewrite append_empty.
  - now rewrite IH, concat_cons, string_app_assoc.
Qed.

Lemma dict_get_files (r : vault_response) :
  Json.dict_get (body_of r) "files" (Json.JList [])
  = Ok (Json.JList (map Json.JStr (get_list (files r)))).
Proof. destruct r as [[fs|] [c|] [rs|]]; reflexivity. Qed.

Lemma dict_get_results (r : vault_response) :
  Json.dict_get (body_of r) "results" (Json.JList [])
  = Ok (Json.JList (map Json.JStr (get_list (results r)))).
Proof. destruct r as [[fs|] [c|] [rs|]]; reflexivity. Qed.

Lemma format_strings (e : env) (l : list string) :
  map (format e) (map Json.JStr l) = l.
Proof. induction l as [|x l IH]; cbn [map format]; [reflexivity | now rewrite IH]. Qed.

(** X6.  The three listing adapters print a heading and then one bullet
    line per item, in the order of the answer; an answer without the key
    ([files], [results]) is treated like an empty list and gives the
    no-result sentence instead. *)
Theorem X6_listing_format (e : env) (s : state) (r : vault_response) :
  (vault e (Get (obsidian_api_url e ++ "/vault/") (authorization e))
   = Ok (body_of r) ->
   fst (list_files_in_vault e s) =
   Ok (match get_list (files r) with
       | [] => "No files found in the Obsidian vault."
       | fs => "### Obsidian Files" ++ nl ++ String.concat "" (map bullet fs)
       end))
  /\ (forall d,
        vault e (Post (obsidian_api_url e ++ "/list_files_in_dir")
                      (authorization e) (BObj [("directory", BStr d)]))
        = Ok (body_of r) ->
        fst (list_files_in_dir e d s) =
        Ok (match get_list (files r) with
            | [] => "No files found in directory `" ++ d ++ "`."
            | fs => "### Files in `" ++ d ++ "`" ++ nl
                    ++ String.concat "" (map bullet fs)
            end))
  /\ (forall q,
        vault e (Post (obsidian_api_url e ++ "/search") (authorization e)
                      (BObj [("query", BStr q)])) = Ok (body_of r) ->
        fst (search_obsidian_vault e q s) =
        Ok (match get_list (results r) with
            | [] => "No results found for query `" ++ q ++ "`."
            | rs => "### Search Results for `" ++ q ++ "`" ++ nl
                    ++ String.concat "" (map bullet rs)
            end)).
Proof.
  split; [|split]; intros; run_adapter;
    match goal with H : vault e _ = Ok _ |- _ => rewrite H end;
    rewrite ?dict_get_files, ?dict_get_results;
    match goal with |- context [get_list ?l] => destruct (get_list l) eqn:G end;
    cbn [map Json.truthy Json.iterate fst]; try reflexivity;
    change (map (format e) (Json.JStr ?x :: map Json.JStr ?l))
      with (map (format e) (map Json.JStr (x :: l)));
    now rewrite format_strings, bullets_concat, !string_app_assoc.
Qed.

Lemma X6_listing_format_witness :
  vault Samples.docker_env
    (Post (obsidian_api_url Samples.docker_env ++ "/list_files_in_dir")
          (authorization Samples.docker_env) (BObj [("directory", BStr "notes")]))
  = Ok (body_of (VaultResponse (Some ["a.md"; "b.md"]) None None))
  /\ fst (list_files_in_dir Samples.docker_env "notes" initial_state)
     = Ok ("### Files in `notes`" ++ nl ++ "- `a.md`" ++ nl ++ "- `b.md`" ++ nl).
Proof.
  split; [reflexivity|].
  exact (proj1 (proj2 (X6_listing_format Samples.docker_env initial_state
                         (VaultResponse (Some ["a.md"; "b.md"]) None None)))
           "notes" eq_refl).
Defined.

(** X7.  A vault adapter sends exactly one request, whether it succeeds or
    fails, and never a second one; a [RequestException] becomes the error
    sentence of the adapter followed by the text of the exception, and any
    other exception leaves the adapter as it is. *)
Theorem X7_vault_adapter_single_request (e : env) (a : action)
    (rq : vault_request) (s : state) :
  vault_request_of e a = Some rq ->
  calls (snd (run e a s)) = (calls s ++ [VaultCall rq])%list
  /\ (forall m, vault e rq = Raise (RequestException m) ->
        fst (run e a s) = Ok (failure_text a ++ m))
  /\ (forall x, vault e rq = Raise x ->
        (forall m, x <> RequestException m) -> fst (run e a s) = Raise x).
Proof.
  intros Q.
  destruct a; try discriminate Q; injection Q as <-; run_adapter;
    (split; [|split]);
    try (intros m V; rewrite V; reflexivity);
    try (intros x V N; rewrite V; destruct x; try reflexivity;
         exfalso; eapply N; reflexivity);
    answers e; reflexivity.
Qed.

Lemma X7_vault_adapter_single_request_witness :
  vault_request_of Samples.vault_down (DeleteObsidianFile "old.md")
  = Some (Post "http://127.0.0.1:27123/delete_file" "Bearer secret"
               (BObj [("filepath", BStr "old.md")]))
  /\ calls (snd (run Samples.vault_down (DeleteObsidianFile "old.md") initial_state))
     = [VaultCall (Post "http://127.0.0.1:27123/delete_file" "Bearer secret"
                        (BObj [("filepath", BStr "old.md")]))]
  /\ fst (run Samples.vault_down (DeleteObsidianFile "old.md") initial_state)
     = Ok "Error deleting file from Obsidian: Connection refused".
Proof.
  split; [reflexivity|].
  destruct (X7_vault_adapter_single_request Samples.vault_down
              (DeleteObsidianFile "old.md")
              (Post "http://127.0.0.1:27123/delete_file" "Bearer secret"
                    (BObj [("filepath", BStr "old.md")]))
              initial_state eq_refl) as (C & F & _).
  split; [exact C|]. exact (F "Connection refused" eq_refl).
Defined.

(** *** A whole turn *)

(** On a readable body the adapters read without raising: [.get] finds a
    value, and a truthy value under [files] or [results] has items. *)
Lemma readable_listing (body : Json.json) (key : string) :
  readable body = true -> key = "files" \/ key = "results" ->
  exists v,
    Json.dict_get body key (Json.JList []) = Ok v
    /\ (Json.truthy v = true -> exists items, Json.iterate v = Ok items).
Proof.
  intros R K. destruct body as [| | | | |d]; try discriminate R.
  cbn [readable] in R. apply andb_true_iff in R as [R _].
  apply andb_true_iff in R as [F S].
  cbn [Json.dict_get]. eexists; split; [reflexivity|].
  destruct K as [-> | ->].
  - destruct (Json.lookup "files" d) as [v|]; [|discriminate].
    destruct v as [|[]|n| | |]; cbn in *; try discriminate; eauto.
    apply Z.eqb_eq in F. subst. discriminate.
  - destruct (Json.lookup "results" d) as [v|]; [|discriminate].
    destruct v as [|[]|n| | |]; cbn in *; try discriminate; eauto.
    apply Z.eqb_eq in S. subst. discriminate.
Qed.

Lemma readable_content (body default : Json.json) :
  readable body = true ->
  exists v, Json.dict_get body "content" default = Ok v.
Proof.
  destruct body; try discriminate. intros _. eexists; reflexivity.
Qed.

Lemma run_replies (e : env) (a : action) (s : state) :
  (forall rq,
     match vault e rq with
     | Ok body => readable body = true
     | Raise x => exists m, x = RequestException m
     end) ->
  exists text progress,
    fst (run e a s) = Ok text
    /\ messages (snd (run e a s)) = (messages s ++ progress)%list
    /\ Forall (fun m => role_of m = Assistant) progress.
Proof.
  intros H.
  destruct a; run_adapter;
    try match goal with
    | |- context [vault e ?r] =>
        let V := fresh "V" in
        let body := fresh "body" in
        pose proof (H r) as V;
        destruct (vault e r) as [body|?x]; [|destruct V as [? ->]];
        cbn [messages rerun ui calls fst snd];
        try match goal with
        | |- context [Json.dict_get body "content" ?d] =>
            destruct (readable_content body d V) as [? ->]
        | |- context [Json.dict_get body ?k ?d] =>
            let T := fresh "T" in
            let I := fresh "I" in
            destruct (readable_listing body k V) as (? & -> & I);
            [tauto|];
            match goal with
            | |- context [if Json.truthy ?v then _ else _] =>
                destruct (Json.truthy v);
                [destruct (I eq_refl) as [? ->]|]
            end
        end
    end;
    repeat match goal with
    | |- context [docker_from_env e] => answer (docker_from_env e)
    | |- context [images_list e] => answer (images_list e)
    | |- context [containers_list e] => answer (containers_list e)
    | |- context [images_get e ?i] => answer (images_get e i)
    | |- context [images_pull e ?i] => answer (images_pull e i)
    | |- context [containers_run e ?i] => answer (containers_run e i)
    | |- context [match ?v with [] => _ | _ :: _ => _ end] => destruct v
    end;
    cbn [fst snd messages rerun ui calls];
    rewrite <- ?app_assoc; cbn [app];
    try (eexists; exists []; rewrite app_nil_r; repeat split; constructor);
    try (eexists; eexists; repeat split; repeat constructor).
Qed.

Lemma respond_replies (e : env) (a : action) (s : state) :
  (forall rq,
     match vault e rq with
     | Ok body => readable body = true
     | Raise x => exists m, x = RequestException m
     end) ->
  exists text progress,
    fst (respond e a s) = Ok text
    /\ messages (snd (respond e a s)) = (messages s ++ progress)%list
    /\ Forall (fun m => role_of m = Assistant) progress.
Proof.
  intros H. destruct (run_replies e a s H) as (text & progress & F & M & P).
  exists text, progress.
  destruct a; try (repeat split; assumption);
    unfold respond, try_except;
    destruct (run e _ s) as [[t|x] s1]; cbn [fst snd] in *;
    try discriminate F; repeat split; assumption.
Qed.

(** X8.  When every vault request fails with a [RequestException] or is
    answered with a readable body (an object whose [files] and [results],
    if present, can be listed and whose [content], if present, is a
    string), a turn of the command chatbot always completes: the store
    gains the user message, then whatever progress messages the adapter
    stored, then exactly one assistant message, and that last message is
    the reply shown last on the screen.  Under that condition no
    exception leaves the turn, whatever the input. *)
Theorem X8_turn_always_replies (e : env) (prompt : string) (s : state) :
  (forall rq,
     match vault e rq with
     | Ok body => readable body = true
     | Raise x => exists m, x = RequestException m
     end) ->
  exists progress text,
    fst (turn e prompt s) = Ok tt
    /\ messages (snd (turn e prompt s))
       = (messages s ++ msg User prompt :: progress ++ [msg Assistant text])%list
    /\ Forall (fun m => role_of m = Assistant) progress
    /\ exists shown,
         ui (snd (turn e prompt s)) = (shown ++ [UiMarkdown Assistant text])%list.
Proof.
  intros H.
  destruct (ParserFacts.dispatch_total prompt) as [a D].
  cbv [turn mbind append_message show modify lift]. rewrite D.
  cbn [messages rerun ui calls].
  match goal with
  | |- context [respond e a ?st] =>
      destruct (respond_replies e a st H) as (text & progress & F & M & P);
      destruct (respond e a st) as [[t|x] s1]
  end; cbn [fst snd messages ui] in *; [|discriminate F].
  injection F as ->. exists progress, text.
  rewrite M, <- !app_assoc. cbn [app]. repeat split; try assumption.
  eexists; reflexivity.
Qed.

Lemma X8_turn_always_replies_witness :
  (forall rq,
     match vault Samples.vault_down rq with
     | Ok body => readable body = true
     | Raise x => exists m, x = RequestException m
     end)
  /\ exists progress text,
       fst (turn Samples.vault_down "/obsidian_delete old.md" initial_state) = Ok tt
       /\ messages (snd (turn Samples.vault_down "/obsidian_delete old.md"
                           initial_state))
          = (messages initial_state
             ++ msg User "/obsidian_delete old.md"
                :: progress ++ [msg Assistant text])%list
       /\ Forall (fun m => role_of m = Assistant) progress
       /\ exists shown,
            ui (snd (turn Samples.vault_down "/obsidian_delete old.md"
                       initial_state))
            = (shown ++ [UiMarkdown Assistant text])%list.
Proof.
  assert (H : forall rq,
                match vault Samples.vault_down rq with
                | Ok body => readable body = true
                | Raise x => exists m, x = RequestException m
                end).
  { intros rq. cbn. eexists; reflexivity. }
  split; [exact H|].
  exact (X8_turn_always_replies Samples.vault_down "/obsidian_delete old.md"
           initial_state H).
Defined.

(** X23.  A turn can end without a reply although the vault did not fail.
    When the vault answers a reading adapter (the two listings, the file
    read, the search) with a success status and a body that is no JSON
    object, [.get] raises an [AttributeError], which is no
    [RequestException]: it leaves the adapter and the turn, after the one
    request, with the user message stored and shown and no assistant
    message. *)
Theorem X23_body_without_get (e : env) (prompt : string) (a : action)
    (rq : vault_request) (body : Json.json) (s : state) :
  dispatch prompt = Ok a -> reads_body a = true ->
  vault_request_of e a = Some rq -> vault e rq = Ok body ->
  (forall d, body <> Json.JDict d) ->
  fst (turn e prompt s)
  = Raise (AttributeError ("'" ++ Json.type_name body
                             ++ "' object has no attribute 'get'"))
  /\ messages (snd (turn e prompt s)) = (messages s ++ [msg User prompt])%list
  /\ ui (snd (turn e prompt s)) = (ui s ++ [UiMarkdown User prompt])%list
  /\ calls (snd (turn e prompt s)) = (calls s ++ [VaultCall rq])%list.
Proof.
  intros D R Q V N.
  cbv [turn mbind append_message show modify lift]. rewrite D.
  cbn [messages rerun ui calls].
  destruct a; try discriminate R; injection Q as <-;
    cbn [respond]; run_adapter; rewrite V;
    (destruct body; [| | | | |exfalso; eapply N; reflexivity]);
    repeat split.
Qed.

Lemma X23_body_without_get_witness :
  dispatch "/obsidian_list_all" = Ok ListFilesInVault
  /\ vault Samples.vault_array (Get "http://127.0.0.1:27123/vault/" "Bearer secret")
     = Ok (Json.JList [Json.JStr "a.md"; Json.JStr "b.md"])
  /\ fst (turn Samples.vault_array "/obsidian_list_all" initial_state)
     = Raise (AttributeError "'list' object has no attribute 'get'")
  /\ messages (snd (turn Samples.vault_array "/obsidian_list_all" initial_state))
     = [msg User "/obsidian_list_all"].
Proof.
  split; [reflexivity|]. split; [reflexivity|].
  destruct (X23_body_without_get Samples.vault_array "/obsidian_list_all"
              ListFilesInVault
              (Get "http://127.0.0.1:27123/vault/" "Bearer secret")
              (Json.JList [Json.JStr "a.md"; Json.JStr "b.md"])
              initial_state eq_refl eq_refl eq_refl eq_refl)
    as (F & M & _); [discriminate|].
  split; [exact F | exact M].
Defined.

(** *** The container adapters *)

(** X9.  [create_docker_container] with a client asks for the local image
    first; it pulls only when the image is not found locally, runs the
    container only after a successful look-up or pull, and never lets an
    exception out: every failure becomes text. *)
Theorem X9_create_container_calls (e : env) (image_name : string) (s : state) :
  docker_from_env e = Ok tt ->
  calls (snd (create_docker_container e image_name s))
  = (calls s
     ++ DockerFromEnv :: ImagesGet image_name
        :: match images_get e image_name with
           | Ok _ => [ContainersRun image_name]
           | Raise (ImageNotFound _) =>
               ImagesPull image_name
               :: match images_pull e image_name with
                  | Ok _ => [ContainersRun image_name]
                  | Raise _ => []
                  end
           | Raise _ => []
           end)%list
  /\ exists text, fst (create_docker_container e image_name s) = Ok text.
Proof.
  intros D. run_adapter. rewrite D.
  cbn [messages rerun ui calls fst snd].
  answer (images_get e image_name);
    try (answer (containers_run e image_name));
    try (answer (images_pull e image_name);
         try (answer (containers_run e image_name)));
    rewrite <- ?app_assoc; cbn [app]; split; try reflexivity;
    eexists; reflexivity.
Qed.

Lemma X9_create_container_calls_witness :
  docker_from_env Samples.docker_env = Ok tt
  /\ calls (snd (create_docker_container Samples.docker_env "alpine" initial_state))
     = [DockerFromEnv; ImagesGet "alpine"; ImagesPull "alpine"; ContainersRun "alpine"]
  /\ fst (create_docker_container Samples.docker_env "alpine" initial_state)
     = Ok "Container `brave_newton` successfully created and started from `alpine`. ID: `3f2a9c1d4e`".
Proof.
  split; [reflexivity|].
  split; [|reflexivity].
  exact (proj1 (X9_create_container_calls Samples.docker_env "alpine"
                  initial_state eq_refl)).
Defined.

(** X10.  Without a container-runtime client each of the three container
    adapters answers [Failed to connect to Docker.], shows the connection
    error on the screen, makes no further call and stores nothing. *)
Theorem X10_no_docker_client (e : env) (a : action) (s : state) (x : exn) :
  uses_docker a = true -> docker_from_env e = Raise x ->
  fst (run e a s) = Ok "Failed to connect to Docker."
  /\ calls (snd (run e a s)) = (calls s ++ [DockerFromEnv])%list
  /\ ui (snd (run e a s))
     = (ui s ++ [UiError ("Error connecting to Docker: " ++ str_exn x)])%list
  /\ messages (snd (run e a s)) = messages s.
Proof.
  intros U D. destruct a; try discriminate U; run_adapter; rewrite D;
    repeat split.
Qed.

Lemma X10_no_docker_client_witness :
  uses_docker (CreateDockerContainer "alpine") = true
  /\ docker_from_env Samples.vault_down
     = Raise (OtherException "Error while fetching server API version")
  /\ fst (run Samples.vault_down (CreateDockerContainer "alpine") initial_state)
     = Ok "Failed to connect to Docker."
  /\ messages (snd (run Samples.vault_down (CreateDockerContainer "alpine")
                      initial_state)) = [].
Proof.
  split; [reflexivity|]. split; [reflexivity|].
  destruct (X10_no_docker_client Samples.vault_down (CreateDockerContainer "alpine")
              initial_state
              (OtherException "Error while fetching server API version")
              eq_refl eq_refl) as (F & _ & _ & M).
  split; [exact F | exact M].
Defined.

End AdapterFacts.

(** ** More on the tool-calling turn *)

Module TurnFacts.
Import Py Conversation ToolChat ToolChatFacts.
Local Open Scope list_scope.

(** *** The store over a session *)

Lemma turn_appends (e : env) (prompt : string) (s : state) :
  exists tail,
    messages (snd (turn e prompt s)) = messages s ++ tail
    /\ Forall (fun m => role_of m <> System) tail.
Proof.
  destruct (turn_cases e prompt s)
    as [[-> _] | [(c & -> & _) | [(fn & r & x & -> & _) | (fn & r & c & -> & _)]]];
    eexists; (split; [reflexivity|]); repeat constructor; discriminate.
Qed.

Lemma script_appends (e : env) (input : option string) (s : state) :
  exists tail,
    messages (snd (script e input s)) = messages s ++ tail
    /\ Forall (fun m => role_of m <> System) tail.
Proof.
  unfold script, mbind, replay.
  destruct input as [[|c prompt]|];
    try (exists []; cbn; rewrite app_nil_r; split; [reflexivity | constructor]).
  match goal with
  | |- context [turn e ?p ?st] => destruct (turn_appends e p st) as (tail & M & F)
  end.
  exists tail. split; assumption.
Qed.

Lemma reachable_system_prompt (s : state) :
  reachable s ->
  exists rest,
    messages s = msg System system_prompt :: rest
    /\ Forall (fun m => role_of m <> System) rest.
Proof.
  induction 1 as [|e input s R (rest & M & F)].
  - exists []. split; [reflexivity | constructor].
  - destruct (script_appends e input s) as (tail & M' & F').
    exists (rest ++ tail). rewrite M', M. split; [reflexivity|].
    apply Forall_app. split; assumption.
Qed.

(** X11.  The store of a session always begins with the system prompt and
    holds no other system message, and a run of the script only appends to
    it: what was stored before is still there, in the same order. *)
Theorem X11_store_append_only (s : state) :
  reachable s ->
  (exists rest,
     messages s = msg System system_prompt :: rest
     /\ Forall (fun m => role_of m <> System) rest)
  /\ forall e input,
       exists tail, messages (snd (script e input s)) = messages s ++ tail.
Proof.
  intros R. split; [now apply reachable_system_prompt|].
  intros e input. destruct (script_appends e input s) as (tail & M & _).
  now exists tail.
Qed.

Lemma X11_store_append_only_witness :
  reachable (snd (script Samples.env_round_trip (Some Samples.question) initial_state))
  /\ exists rest,
       messages (snd (script Samples.env_round_trip (Some Samples.question)
                        initial_state))
       = msg System system_prompt :: rest
       /\ Forall (fun m => role_of m <> System) rest.
Proof.
  assert (R : reachable (snd (script Samples.env_round_trip
                                (Some Samples.question) initial_state)))
    by (apply reach_run, reach_initial).
  split; [exact R|]. exact (proj1 (X11_store_append_only _ R)).
Defined.

(** *** The requests of a turn *)

(** X12.  A turn sends one or two inference requests, never more.  The
    first carries the whole store, the new user message included, and the
    tool definitions; the second, when there is one, carries no tool
    definitions and the store as it is after the tool message was
    appended. *)
Theorem X12_requests_replay_store (e : env) (prompt : string) (s : state) :
  let u := msg User prompt in
  let first := ChatRequest "llama3.1:latest" (messages s ++ [u]) (Some TOOLS) false in
  requests (snd (turn e prompt s)) = requests s ++ [first]
  \/ exists fn r,
       requests (snd (turn e prompt s))
       = requests s
         ++ [first;
             ChatRequest "llama3.1:latest"
               (messages s ++ [u; Message Tool r (Some fn)]) None false].
Proof.
  cbv zeta.
  destruct (turn_cases e prompt s)
    as [[_ Q] | [(c & _ & Q) | [(fn & r & x & _ & Q & _) | (fn & r & c & _ & Q & _)]]];
    rewrite Q; [now left | now left | right | right]; now exists fn, r.
Qed.

(** An adapter call sends at most one vault request. *)
Lemma invoke_sends (e : env) (a : adapter) (fn_args : json) (s : state) :
  exists sent,
    invoke e a fn_args s =
    (fst (invoke e a fn_args initial_state),
     State (messages s) (ui s) (requests s) (vault_calls s ++ sent))
    /\ List.length sent <= 1.
Proof.
  unfold invoke.
  destruct fn_args;
    try (exists []; cbn; rewrite app_nil_r; split; [now destruct s | lia]).
  destruct (unexpected_keyword (parameters a) d);
    [exists []; cbn; rewrite app_nil_r; split; [now destruct s | lia]|].
  destruct a; [| destruct (lookup "filename" d) |];
    try (eexists [_]; split; [reflexivity | cbn; lia]).
  exists []; cbn; rewrite app_nil_r; split; [now destruct s | lia].
Qed.

(** X13.  A turn calls at most one adapter, so it sends at most one vault
    request, however many tool calls the response of the model lists. *)
Theorem X13_at_most_one_adapter_call (e : env) (prompt : string) (s : state) :
  exists sent,
    vault_calls (snd (turn e prompt s)) = vault_calls s ++ sent
    /\ List.length sent <= 1.
Proof.
  cbv [turn mbind append_message show get_messages post_chat modify lift].
  cbn [messages ui requests vault_calls].
  destruct (chat e (payload (messages s ++ [msg User prompt]))) as [data|x];
    [|exists []; cbn; rewrite app_nil_r; split; [reflexivity | lia]].
  destruct (select_tool_call data) as [tc|].
  - cbv [handle_tool_call mbind lift show modify try_except append_message
         get_messages post_chat].
    destruct (decode_arguments e tc) as [fn_args|x];
      [|exists []; cbn; rewrite app_nil_r; split; [reflexivity | lia]].
    cbn [messages ui requests vault_calls].
    destruct (lookup (fn_name (function tc)) FUNCTION_MAP) as [a|];
      [|exists []; cbn; rewrite app_nil_r; split; [reflexivity | lia]].
    match goal with
    | |- context [invoke e a fn_args ?st] =>
        destruct (invoke_sends e a fn_args st) as (sent & E & L); rewrite E; clear E
    end.
    cbn [messages ui requests vault_calls].
    exists sent. split; [|exact L].
    destruct (fst (invoke e a fn_args initial_state)) as [result|x];
      [|reflexivity].
    cbn [messages ui requests vault_calls].
    destruct (chat e _) as [fu|x]; [destruct (content_of fu)|]; reflexivity.
  - exists []. rewrite app_nil_r. destruct (content_of data); split; cbn; try lia;
      reflexivity.
Qed.

(** *** The failure paths of the tool branch *)

Ltac first_answer F :=
  cbv [turn mbind append_message show get_messages post_chat modify lift];
  cbn [messages ui requests vault_calls]; rewrite F.

(** X14.  A tool call whose arguments decode but whose tool is not in the
    registry ends the turn with the error [Unknown tool requested: ...]:
    no adapter is called, no second request is sent, and the store gains
    the user message only. *)
Theorem X14_unknown_tool (e : env) (prompt : string) (s : state)
    (data : response) (tc : tool_call) (fn_args : json) :
  chat e (payload (messages s ++ [msg User prompt])) = Ok data ->
  select_tool_call data = Some tc ->
  decode_arguments e tc = Ok fn_args ->
  lookup (fn_name (function tc)) FUNCTION_MAP = None ->
  fst (turn e prompt s) = Ok tt
  /\ messages (snd (turn e prompt s)) = messages s ++ [msg User prompt]
  /\ requests (snd (turn e prompt s))
     = requests s ++ [payload (messages s ++ [msg User prompt])]
  /\ vault_calls (snd (turn e prompt s)) = vault_calls s
  /\ errors (ui (snd (turn e prompt s)))
     = errors (ui s)
       ++ [("Unknown tool requested: " ++ fn_name (function tc))%string].
Proof.
  intros F Sel D L. first_answer F. rewrite Sel.
  cbv [handle_tool_call mbind lift show modify]. rewrite D.
  cbn [messages ui requests vault_calls]. rewrite L.
  cbn [fst snd messages ui requests vault_calls].
  repeat split. unfold errors. rewrite !flat_map_app. cbn.
  now rewrite !app_nil_r.
Qed.

Lemma X14_unknown_tool_witness :
  fst (turn Samples.env_unknown_tool Samples.question initial_state) = Ok tt
  /\ messages (snd (turn Samples.env_unknown_tool Samples.question initial_state))
     = messages initial_state ++ [msg User Samples.question]
  /\ errors (ui (snd (turn Samples.env_unknown_tool Samples.question initial_state)))
     = ["Unknown tool requested: delete_everything"%string].
Proof.
  destruct (X14_unknown_tool Samples.env_unknown_tool Samples.question initial_state
              (Samples.asks "delete_everything" (Some (JDict [])))
              (ToolCall (FunctionCall "delete_everything" (Some (JDict []))))
              (JDict []) eq_refl eq_refl eq_refl eq_refl)
    as (O & M & _ & _ & E).
  split; [exact O|]. split; [exact M | exact E].
Defined.

(** X15.  When the adapter call raises (the vault request fails, or the
    arguments do not fit the parameters of the adapter), the exception is
    caught: the turn shows [Tool call `fn` failed: ...] with the text of
    the exception, stores no tool message and sends no second request. *)
Theorem X15_adapter_failure (e : env) (prompt : string) (s : state)
    (data : response) (tc : tool_call) (fn_args : json) (a : adapter) (x : exn) :
  chat e (payload (messages s ++ [msg User prompt])) = Ok data ->
  select_tool_call data = Some tc ->
  decode_arguments e tc = Ok fn_args ->
  lookup (fn_name (function tc)) FUNCTION_MAP = Some a ->
  fst (invoke e a fn_args s) = Raise x ->
  fst (turn e prompt s) = Ok tt
  /\ messages (snd (turn e prompt s)) = messages s ++ [msg User prompt]
  /\ requests (snd (turn e prompt s))
     = requests s ++ [payload (messages s ++ [msg User prompt])]
  /\ errors (ui (snd (turn e prompt s)))
     = errors (ui s)
       ++ [("Tool call `" ++ fn_name (function tc) ++ "` failed: "
            ++ str_exn x)%string].
Proof.
  intros F Sel D L I. first_answer F. rewrite Sel.
  cbv [handle_tool_call mbind lift show modify try_except]. rewrite D.
  cbn [messages ui requests vault_calls]. rewrite L.
  match goal with
  | |- context [invoke e a fn_args ?st] =>
      destruct (invoke_frame e a fn_args st) as [sent E]; rewrite E; clear E
  end.
  rewrite <- (invoke_answer e a fn_args s), I.
  cbn [fst snd messages ui requests vault_calls].
  repeat split. unfold errors. rewrite !flat_map_app. cbn.
  now rewrite !app_nil_r.
Qed.

Lemma X15_adapter_failure_witness :
  fst (invoke Samples.env_extra_argument list_files
         (JDict [("folder"%string, JStr "notes")]) initial_state)
  = Raise (TypeError "list_files() got an unexpected keyword argument 'folder'")
  /\ fst (turn Samples.env_extra_argument Samples.question initial_state) = Ok tt
  /\ messages (snd (turn Samples.env_extra_argument Samples.question initial_state))
     = messages initial_state ++ [msg User Samples.question]
  /\ errors (ui (snd (turn Samples.env_extra_argument Samples.question
                        initial_state)))
     = ["Tool call `list_files` failed: list_files() got an unexpected keyword argument 'folder'"%string].
Proof.
  split; [reflexivity|].
  destruct (X15_adapter_failure Samples.env_extra_argument Samples.question
              initial_state
              (Samples.asks "list_files" (Some (JDict [("folder"%string, JStr "notes")])))
              (ToolCall (FunctionCall "list_files"
                           (Some (JDict [("folder"%string, JStr "notes")]))))
              (JDict [("folder"%string, JStr "notes")]) list_files
              (TypeError "list_files() got an unexpected keyword argument 'folder'")
              eq_refl eq_refl eq_refl eq_refl eq_refl)
    as (O & M & _ & E).
  split; [exact O|]. split; [exact M | exact E].
Defined.

(** *** Edge cases of the first response *)

(** X16.  An empty tool-call list makes the turn a direct reply: the
    singular [tool] entry is looked at only when the message has no
    [tool_calls] key at all, so with an empty list it is ignored. *)
Theorem X16_empty_tool_call_list (e : env) (prompt : string) (s : state)
    (data : response) (m : chat_message) (c : string) :
  chat e (payload (messages s ++ [msg User prompt])) = Ok data ->
  resp_message data = Some m ->
  tool_calls m = Some [] ->
  msg_content m = Some c ->
  fst (turn e prompt s) = Ok tt
  /\ messages (snd (turn e prompt s))
     = messages s ++ [msg User prompt; msg Assistant c]
  /\ requests (snd (turn e prompt s))
     = requests s ++ [payload (messages s ++ [msg User prompt])]
  /\ vault_calls (snd (turn e prompt s)) = vault_calls s.
Proof.
  intros F M T C. first_answer F.
  unfold select_tool_call, content_of. rewrite M, T. cbn [getkey bind].
  rewrite C. cbn [getkey fst snd messages requests vault_calls].
  rewrite <- !app_assoc. repeat split.
Qed.

Lemma X16_empty_tool_call_list_witness :
  fst (turn Samples.env_empty_list Samples.question initial_state) = Ok tt
  /\ messages (snd (turn Samples.env_empty_list Samples.question initial_state))
     = messages initial_state
       ++ [msg User Samples.question; msg Assistant "No tool needed."]
  /\ vault_calls (snd (turn Samples.env_empty_list Samples.question initial_state))
     = [].
Proof.
  destruct (X16_empty_tool_call_list Samples.env_empty_list Samples.question
              initial_state
              (Response (Some (ChatMessage (Some "No tool needed."%string) (Some [])
                                 (Some (ToolCall (FunctionCall "list_files" None))))))
              (ChatMessage (Some "No tool needed."%string) (Some [])
                 (Some (ToolCall (FunctionCall "list_files" None))))
              "No tool needed." eq_refl eq_refl eq_refl eq_refl)
    as (O & M & _ & V).
  split; [exact O|]. split; [exact M | exact V].
Defined.

(** X17.  A first response without tool call that lacks the message or its
    content makes the turn raise a [KeyError] for the missing key; the
    script shows no error of its own and the store holds the user message
    only. *)
Theorem X17_missing_content (e : env) (prompt : string) (s : state)
    (data : response) :
  chat e (payload (messages s ++ [msg User prompt])) = Ok data ->
  select_tool_call data = None ->
  (resp_message data = None
   \/ exists m, resp_message data = Some m /\ msg_content m = None) ->
  (fst (turn e prompt s) = Raise (KeyError "message")
   \/ fst (turn e prompt s) = Raise (KeyError "content"))
  /\ messages (snd (turn e prompt s)) = messages s ++ [msg User prompt]
  /\ errors (ui (snd (turn e prompt s))) = errors (ui s).
Proof.
  intros F Sel K. first_answer F. rewrite Sel. unfold content_of.
  destruct K as [K | (m & K & C)]; rewrite K; cbn [getkey bind];
    rewrite ?C; cbn [getkey fst snd messages ui];
    (split; [tauto|]); (split; [reflexivity|]);
    unfold errors; rewrite !flat_map_app; cbn; now rewrite !app_nil_r.
Qed.

Lemma X17_missing_content_witness :
  fst (turn Samples.env_no_message Samples.question initial_state)
  = Raise (KeyError "message")
  /\ messages (snd (turn Samples.env_no_message Samples.question initial_state))
     = messages initial_state ++ [msg User Samples.question].
Proof.
  destruct (X17_missing_content Samples.env_no_message Samples.question
              initial_state (Response None) eq_refl eq_refl (or_introl eq_refl))
    as ([O | O] & M & _).
  - split; [exact O | exact M].
  - discriminate O.
Defined.

(** *** Binding the arguments *)

Lemma unexpected_keyword_none (params : list string) (kwargs : list (string * json)) :
  unexpected_keyword params kwargs = None ->
  forall k v, In (k, v) kwargs -> In k params.
Proof.
  induction kwargs as [|[k' v'] kwargs IH]; cbn [unexpected_keyword];
    [intros _ k v []|].
  destruct (existsb (String.eqb k') params) eqn:E; [|discriminate].
  intros U k v [I | I].
  - injection I as <- <-. apply existsb_exists in E as (p & Ip & Ep).
    apply String.eqb_eq in Ep. now subst.
  - eapply IH; eauto.
Qed.

(** X18.  An adapter sends its vault request only when the arguments are a
    mapping whose keys are all parameters of the adapter (and, for
    [summarize_file], has the file name); otherwise the call raises a
    [TypeError] and nothing is sent.  When the request is sent, the
    answer of the adapter is the answer of the vault. *)
Theorem X18_arguments_are_bound (e : env) (a : adapter) (fn_args : json) (s : state) :
  (exists rq kwargs,
     fn_args = JDict kwargs
     /\ (forall k v, In (k, v) kwargs -> In k (parameters a))
     /\ vault_calls (snd (invoke e a fn_args s)) = vault_calls s ++ [rq]
     /\ fst (invoke e a fn_args s) = vault e rq)
  \/ (vault_calls (snd (invoke e a fn_args s)) = vault_calls s
      /\ exists text, fst (invoke e a fn_args s) = Raise (TypeError text)).
Proof.
  unfold invoke.
  destruct fn_args as [| | | | |kwargs];
    try (right; split; [reflexivity | eexists; reflexivity]).
  destruct (unexpected_keyword (parameters a) kwargs) eqn:U;
    [right; split; [reflexivity | eexists; reflexivity]|].
  pose proof (unexpected_keyword_none _ _ U) as K.
  destruct a; [| destruct (lookup "filename" kwargs) |];
    try (left; eexists; exists kwargs; repeat split; [exact K]);
    right; split; [reflexivity | eexists; reflexivity].
Qed.

End TurnFacts.

(** ** The tool-support checker *)

Module ToolSupportFacts.
Import Py Conversation ToolSupport.
Local Open Scope list_scope.

(** *** The list of models *)

Lemma add_names_strings (names : list string) : forall acc,
  fold_left add_name (map ToolChat.JStr names) acc
  = acc ++ map ToolChat.JStr names.
Proof.
  induction names as [|n names IH]; intros acc; cbn [map fold_left].
  - now rewrite app_nil_r.
  - rewrite IH. cbn [add_name]. now rewrite <- app_assoc.
Qed.

Lemma add_names_objects (names : list string) : forall acc,
  fold_left add_name
    (map (fun n => ToolChat.JDict [("name"%string, ToolChat.JStr n)]) names) acc
  = acc ++ map ToolChat.JStr names.
Proof.
  induction names as [|n names IH]; intros acc; cbn [map fold_left].
  - now rewrite app_nil_r.
  - rewrite IH. cbn. now rewrite <- app_assoc.
Qed.

(** X19.  The list of models to test is never empty: it is the static list
    unless the server answers the listing with status 200 and a JSON list
    in which at least one name is found. *)
Theorem X19_models_never_empty (e : env) :
  models_to_test e <> []
  /\ (models_to_test e = MODELS_TO_TEST
      \/ exists resp items,
           get_models e = Ok resp /\ status_code resp = 200
           /\ json_body resp = Ok (ToolChat.JList items)
           /\ models_to_test e = fold_left add_name items []).
Proof.
  unfold models_to_test.
  destruct (get_models e) as [resp|x]; [|split; [discriminate | now left]].
  destruct (Nat.eqb_spec (status_code resp) 200) as [S|S];
    [|split; [discriminate | now left]].
  destruct (json_body resp) as [data|x] eqn:J;
    [|split; [discriminate | now left]].
  destruct data as [| | | |items|]; try (split; [discriminate | now left]).
  cbv zeta. destruct (fold_left add_name items []) as [|n names] eqn:N;
    [split; [discriminate | now left]|].
  split; [discriminate|]. right. exists resp, items.
  rewrite <- N. repeat split; auto.
Qed.

(** X20.  A listing of model names replaces the static list, in the order
    of the listing, whether the names come as plain strings or as objects
    with a [name] key. *)
Theorem X20_listed_models_replace (e : env) (names : list string) (body : string) :
  names <> [] ->
  (get_models e = Ok (Reply 200 (Ok (ToolChat.JList (map ToolChat.JStr names))) body) ->
   models_to_test e = map ToolChat.JStr names)
  /\ (get_models e
      = Ok (Reply 200
              (Ok (ToolChat.JList
                     (map (fun n => ToolChat.JDict [("name"%string, ToolChat.JStr n)])
                          names)))
              body) ->
      models_to_test e = map ToolChat.JStr names).
Proof.
  intros N. split; intros G; unfold models_to_test; rewrite G;
    cbn [status_code json_body Nat.eqb]; cbv zeta;
    rewrite ?add_names_strings, ?add_names_objects; cbn [app];
    destruct names; [contradiction | reflexivity | contradiction | reflexivity].
Qed.

Lemma X20_listed_models_replace_witness :
  ["qwen2.5:latest"; "mistral:latest"]%string <> []
  /\ models_to_test Samples.support_env
     = [ToolChat.JStr "qwen2.5:latest"; ToolChat.JStr "mistral:latest"].
Proof.
  assert (N : ["qwen2.5:latest"; "mistral:latest"]%string <> []) by discriminate.
  split; [exact N|].
  exact (proj2 (X20_listed_models_replace Samples.support_env
                  ["qwen2.5:latest"; "mistral:latest"]%string "[...]" N) eq_refl).
Defined.

(** *** One model *)

Lemma length_take (n : nat) : forall s, String.length (take n s) <= n.
Proof.
  unfold take. induction n as [|n IH]; intros [|c s]; cbn; try lia.
  specialize (IH s). lia.
Qed.

Lemma take_not_empty (n : nat) (s : string) :
  s <> ""%string -> take (S n) s <> ""%string.
Proof. destruct s; [contradiction | discriminate]. Qed.

(** X21.  A response with a status other than 200 is reported as rejected
    with that status and a body excerpt that is never empty and never
    longer than 1000 characters ([<no body>] stands for an empty body);
    with status 200 the model is reported as accepted, and a body that is
    no JSON is kept as text of at most 1000 characters. *)
Theorem X21_report_of_response (e : env) (m : ToolChat.json) (r : reply) :
  post_chat e (test_payload m) = Ok r ->
  (status_code r <> 200 ->
   r_status (test_model_tools e m) = "rejected"%string
   /\ r_http_status (test_model_tools e m) = Some (status_code r)
   /\ exists b,
        r_body (test_model_tools e m) = Some b
        /\ b <> ""%string /\ String.length b <= 1000
        /\ (text r = ""%string -> b = "<no body>"%string))
  /\ (status_code r = 200 ->
      r_status (test_model_tools e m) = "ok"%string
      /\ r_http_status (test_model_tools e m) = Some 200
      /\ forall t, r_sample_response (test_model_tools e m) = Some (SampleText t) ->
                   String.length t <= 1000).
Proof.
  intros P. unfold test_model_tools. rewrite P. split; intros S.
  - apply Nat.eqb_neq in S. rewrite S. cbn [r_status r_http_status r_body].
    repeat split. eexists. split; [reflexivity|].
    split; [|split].
    + destruct (text r); apply take_not_empty; discriminate.
    + apply length_take.
    + now intros ->.
  - apply Nat.eqb_eq in S. rewrite S.
    cbn [r_status r_http_status r_sample_response]. repeat split.
    intros t T. destruct (json_body r); [discriminate T|].
    injection T as <-. apply length_take.
Qed.

Lemma X21_report_of_response_witness :
  post_chat Samples.support_env (test_payload (ToolChat.JStr "mistral:latest"))
  = Ok (Reply 400 (Raise (JSONDecodeError "Expecting value")) "")
  /\ 400 <> 200
  /\ r_status (test_model_tools Samples.support_env (ToolChat.JStr "mistral:latest"))
     = "rejected"%string
  /\ r_body (test_model_tools Samples.support_env (ToolChat.JStr "mistral:latest"))
     = Some "<no body>"%string.
Proof.
  split; [reflexivity|].
  assert (N : 400 <> 200) by discriminate.
  split; [exact N|].
  destruct (proj1 (X21_report_of_response Samples.support_env
                     (ToolChat.JStr "mistral:latest")
                     (Reply 400 (Raise (JSONDecodeError "Expecting value")) "")
                     eq_refl) N)
    as (S & _ & b & B & _ & _ & T).
  split; [exact S|]. rewrite B. now rewrite (T eq_refl).
Defined.

(** *** The whole run *)

Lemma test_all_map (e : env) (models : list ToolChat.json) :
  forall results out,
    fst (fold_left
           (fun acc m =>
              let res := test_model_tools e m in
              (fst acc ++ [res], (snd acc ++ progress e m res)%string))
           models (results, out))
    = results ++ map (test_model_tools e) models.
Proof.
  induction models as [|m models IH]; intros results out; cbn [fold_left map].
  - cbn. now rewrite app_nil_r.
  - cbv zeta. cbn [fst snd]. rewrite IH. now rewrite <- app_assoc.
Qed.

Lemma summary_line_ok (e e' : env) (m : ToolChat.json) :
  exists line, summary_line e' (test_model_tools e m) = Ok line.
Proof.
  unfold summary_line, test_model_tools.
  destruct (post_chat e (test_payload m)) as [r|x];
    [destruct (Nat.eqb (status_code r) 200)|]; cbn; eexists; reflexivity.
Qed.

Lemma summary_ok (e e' : env) (models : list ToolChat.json) : forall out,
  exists text, summary e' (map (test_model_tools e) models) out = Ok text.
Proof.
  induction models as [|m models IH]; intros out; cbn [map summary].
  - now exists out.
  - destruct (summary_line_ok e e' m) as [line ->]. cbn [bind]. apply IH.
Qed.

(** X22.  The run never raises: it returns one report per model of the
    list, in the order of the list and under the name of its model, and
    the fallback [r.get('body')[:200]] of the summary is only reached by
    reports that have a body. *)
Theorem X22_main_reports_every_model (e : env) :
  exists out,
    main e = Ok (map (test_model_tools e) (models_to_test e), out)
    /\ map r_model (map (test_model_tools e) (models_to_test e))
       = models_to_test e.
Proof.
  unfold main. cbv zeta. unfold test_all. rewrite test_all_map. cbn [app].
  match goal with
  | |- context [summary e ?rs ?o] =>
      destruct (summary_ok e e (models_to_test e) o) as [text ->]
  end.
  cbn [bind]. eexists. split; [reflexivity|].
  induction (models_to_test e) as [|m ms IH]; cbn [map]; [reflexivity|].
  f_equal; [|exact IH].
  unfold test_model_tools. destruct (post_chat e (test_payload m)) as [r|x];
    [destruct (Nat.eqb (status_code r) 200)|]; reflexivity.
Qed.

End ToolSupportFacts.
